(** * Fire Fit: the tiered outfit operations and the mock style generator

    A shallow embedding of
      - [src/utils/seasonPresets.js]  (the preset catalog),
      - [src/utils/mockAI.js]         (the mock analysis generator),
      - [src/services/outfitAPI.js]   (upload / analyze / save / fetch / delete),
      - [src/lib/storage.js]          (the older upload helper),
      - the edge functions [save-fit], [getSavedFits] and [upload-file],
      - the handlers of [src/pages/UploadFitPage.jsx] and
        [src/components/FavoritesPage.jsx], and the color lookup of
        [src/components/FitDisplay.jsx],
    followed by the properties of these functions.

    Conventions of the embedding.
      - A JavaScript value that is either a string or [null]/[undefined] is an
        [option string]; [None] stands for both [null] and [undefined], which
        the code never tells apart except in the two defaulted parameters of
        [generateMockAnalysis], where [None] is [undefined].
      - An object literal used as a table is an association list in the order
        of the literal; a lookup that misses the own keys continues in
        [Object.prototype], as it does in JavaScript.
      - A thrown exception (a rejected promise, for an [async] function) is
        the [Throw] case of [result].
      - [Math.random()] is the next element of a stream of draws from [0,1).
      - [Date.now()] and [new Date().toISOString()] are a number of
        milliseconds read from the environment of the call.
      - [localStorage.saved_outfits], when it can be read, holds the list
        that this module wrote there; reading it ([getItem], [JSON.parse])
        and writing it ([setItem]) may each raise during a call, and a write
        that raises leaves the entry as it was.  The backend table [outfits]
        is a list of rows.  A call to the Gateway either goes through or
        fails without touching the table. *)

From Stdlib Require Import List String Ascii Bool Arith PeanoNat NArith ZArith Lia.
From Stdlib Require Import DecimalString DecimalN DecimalPos.
From Stdlib Require Import Sorting.Sorted Sorting.Permutation.
Import ListNotations.
Open Scope string_scope.

(* ================================================================= *)
(** ** JavaScript values, exceptions, property lookup *)

Inductive js_error : Type :=
| TypeError (msg : string)
| Error (msg : string)
| StorageError (msg : string)
| FunctionsError (msg : string)
| PostgrestError (msg : string)
| SyntaxError (msg : string)
| DOMException (error_name msg : string).

Inductive result (A : Type) : Type :=
| Ok (a : A)
| Throw (e : js_error).
Arguments Ok {A} a.
Arguments Throw {A} e.

Definition is_ok {A} (r : result A) : bool :=
  match r with Ok _ => true | Throw _ => false end.

(** Sequencing, shared by the three kinds of computation of this file:
    pure steps that may throw ([result]), the generator, which also draws
    random numbers ([rand]), and the operations on the stores ([io]). *)
Class Monad (M : Type -> Type) : Type := {
  ret : forall {A}, A -> M A;
  bind : forall {A B}, M A -> (A -> M B) -> M B
}.

Notation "x <- m ;; f" := (bind m (fun x => f))
  (at level 61, m at next level, right associativity).

#[export] Instance result_monad : Monad result := {
  ret := fun A (a : A) => Ok a;
  bind := fun A B (r : result A) (f : A -> result B) =>
    match r with
    | Ok a => f a
    | Throw e => Throw e
    end
}.

(** Truthiness of a string-or-null value: [null], [undefined] and the empty
    string are falsy. *)
Definition truthy (v : option string) : bool :=
  match v with
  | Some s => negb (s =? "")
  | None => false
  end.

(** The property names every object inherits from [Object.prototype]
    (ECMAScript, with the legacy accessors of Annex B). *)
Definition Object_prototype_keys : list string :=
  [ "constructor"; "hasOwnProperty"; "isPrototypeOf"; "propertyIsEnumerable";
    "toLocaleString"; "toString"; "valueOf"; "__proto__";
    "__defineGetter__"; "__defineSetter__"; "__lookupGetter__";
    "__lookupSetter__" ].

(** The outcome of [obj[key]] on an object literal: an own property, a
    built-in found on the prototype (a function, or the prototype itself for
    [__proto__]), or [undefined]. *)
Inductive property (A : Type) : Type :=
| Own (a : A)
| Inherited
| Undefined.
Arguments Own {A} a.
Arguments Inherited {A}.
Arguments Undefined {A}.

Definition object (A : Type) : Type := list (string * A).

Fixpoint own_property {A} (o : object A) (key : string) : option A :=
  match o with
  | [] => None
  | (k, v) :: rest => if k =? key then Some v else own_property rest key
  end.

Definition js_get {A} (o : object A) (key : string) : property A :=
  match own_property o key with
  | Some v => Own v
  | None =>
      if existsb (String.eqb key) Object_prototype_keys
      then Inherited else Undefined
  end.

(** [Object.keys] *)
Definition js_keys {A} (o : object A) : list string := map fst o.

(** [a || b] on values that are objects, arrays or functions when defined:
    only [undefined] is falsy. *)
Definition js_or {A} (a b : property A) : property A :=
  match a with
  | Undefined => b
  | _ => a
  end.

(** [o.f] where [o] is the outcome of a lookup: reading a field of
    [undefined] throws; a built-in has none of the preset's fields. *)
Definition field {A B} (f : A -> B) (o : property A) : result (property B) :=
  match o with
  | Own a => Ok (Own (f a))
  | Inherited => Ok Undefined
  | Undefined => Throw (TypeError "Cannot read properties of undefined")
  end.

(** [arr.slice(0, n)] *)
Definition slice0 {A} (n : nat) (arr : property (list A)) : result (list A) :=
  match arr with
  | Own l => Ok (firstn n l)
  | Inherited => Throw (TypeError "slice is not a function")
  | Undefined => Throw (TypeError "Cannot read properties of undefined (reading 'slice')")
  end.

(** [arr.push(x)], and the spread [[...arr, x]] *)
Definition push {A} (arr : list A) (x : A) : list A := app arr [x].

(** [arr[i]] *)
Definition index {A} (i : nat) (arr : property (list A)) : result (option A) :=
  match arr with
  | Own l => Ok (nth_error l i)
  | Inherited => Ok None
  | Undefined => Throw (TypeError "Cannot read properties of undefined")
  end.

(* ================================================================= *)
(** ** src/utils/seasonPresets.js *)

Record SeasonPreset : Type := {
  preset_season : string;
  recommendedColors : list string;
  suggestedFormality : string;
  recommendedAccessories : list string;
  preset_aesthetic : list string;
  preset_description : string
}.

Definition Spring_preset : SeasonPreset := {|
  preset_season := "Spring";
  recommendedColors := ["pastel pink"; "mint green"; "lavender"; "cream"];
  suggestedFormality := "casual";
  recommendedAccessories := ["sunglasses"; "light scarf"; "bracelet"; "floral headband"];
  preset_aesthetic := ["floral"; "airy"; "layered"; "fresh"];
  preset_description := "Light, pastel tones with breathable fabrics" |}.

Definition Summer_preset : SeasonPreset := {|
  preset_season := "Summer";
  recommendedColors := ["white"; "bright yellow"; "coral"; "turquoise"];
  suggestedFormality := "casual";
  recommendedAccessories := ["sunglasses"; "beach hat"; "sandals"; "minimalist jewelry"];
  preset_aesthetic := ["beachy"; "bright"; "minimalist"; "breezy"];
  preset_description := "Bright, breathable fabrics and lightweight accessories" |}.

Definition Fall_preset : SeasonPreset := {|
  preset_season := "Fall";
  recommendedColors := ["rust"; "olive"; "burgundy"; "mustard"; "brown"];
  suggestedFormality := "casual";
  recommendedAccessories := ["scarf"; "beanie"; "crossbody bag"; "ankle boots"];
  preset_aesthetic := ["earthy"; "layered"; "cozy"; "vintage"];
  preset_description := "Earthy tones with layered pieces and warm accessories" |}.

Definition Winter_preset : SeasonPreset := {|
  preset_season := "Winter";
  recommendedColors := ["gray"; "navy"; "black"; "burgundy"; "forest green"];
  suggestedFormality := "casual";
  recommendedAccessories := ["scarf"; "gloves"; "beanie"; "winter boots"];
  preset_aesthetic := ["cozy"; "layered"; "thermal"; "minimalist"];
  preset_description := "Warm, muted colors with thermal layers and protective accessories" |}.

Definition SEASON_PRESETS : object SeasonPreset :=
  [ ("Spring", Spring_preset); ("Summer", Summer_preset);
    ("Fall", Fall_preset); ("Winter", Winter_preset) ].

(** [SEASON_PRESETS[seasonName] || SEASON_PRESETS.Spring] *)
Definition getSeasonPreset (seasonName : string) : property SeasonPreset :=
  js_or (js_get SEASON_PRESETS seasonName) (js_get SEASON_PRESETS "Spring").

(* ================================================================= *)
(** ** Randomness: [Math.random()] *)

(** One value returned by [Math.random()]: the rational
    [num / (num + slack + 1)], which ranges over exactly the rationals of
    [0,1).  Rounding of the floating-point product is not represented; for
    the array lengths of this program (at most 5) it never reaches the
    length. *)
Record draw : Type := { num : nat; slack : nat }.

(** [Math.floor(r * n)] *)
Definition floor_scale (r : draw) (n : nat) : nat :=
  (num r * n) / (num r + slack r + 1).

(** The successive values of [Math.random()]. *)
Definition random_source : Type := nat -> draw.

(** A computation that may call [Math.random()] and may throw: it reads the
    source at the current position and returns the next position. *)
Definition rand (A : Type) : Type := random_source -> nat -> result (A * nat).

#[export] Instance rand_monad : Monad rand := {
  ret := fun A (a : A) => fun _ k => Ok (a, k);
  bind := fun A B (m : rand A) (f : A -> rand B) => fun src k =>
    match m src k with
    | Ok (a, k') => f a src k'
    | Throw e => Throw e
    end
}.

Definition throw_rand {A} (e : js_error) : rand A := fun _ _ => Throw e.

(** A pure step that may throw, inside a [rand] computation. *)
Definition lift {A} (r : result A) : rand A :=
  fun _ k => match r with Ok a => Ok (a, k) | Throw e => Throw e end.

Definition Math_random : rand draw := fun src k => Ok (src k, S k).

(* ================================================================= *)
(** ** src/utils/mockAI.js *)

Definition topDescriptions : object (list string) :=
  [ ("Spring", ["floral blouse"; "light cardigan"; "pastel sweater"; "cotton tee"]);
    ("Summer", ["white tank top"; "crop top"; "linen shirt"; "bright tee"]);
    ("Fall", ["rust sweater"; "olive button-up"; "denim jacket"; "cozy hoodie"]);
    ("Winter", ["chunky knit sweater"; "thermal top"; "turtleneck"; "fleece pullover"]) ].

Definition topLayerDescriptions : object (list string) :=
  [ ("Spring", ["light denim jacket"; "bomber jacket"; "cardigan"]);
    ("Summer", ["kimono"; "sheer cover-up"; "vest"]);
    ("Fall", ["leather jacket"; "oversized blazer"; "wool coat"]);
    ("Winter", ["puffer jacket"; "parka"; "peacoat"; "trench coat"]) ].

Definition bottomDescriptions : object (list string) :=
  [ ("Spring", ["light wash jeans"; "floral skirt"; "khaki pants"; "midi skirt"]);
    ("Summer", ["denim shorts"; "white pants"; "flowy skirt"; "linen trousers"]);
    ("Fall", ["dark jeans"; "corduroy pants"; "plaid skirt"; "cargo pants"]);
    ("Winter", ["black jeans"; "wool trousers"; "fleece-lined leggings"; "thermal pants"]) ].

Definition shoesDescriptions : object (list string) :=
  [ ("Spring", ["white sneakers"; "canvas shoes"; "loafers"; "sandals"]);
    ("Summer", ["slides"; "espadrilles"; "sandals"; "white sneakers"]);
    ("Fall", ["ankle boots"; "combat boots"; "sneakers"; "oxfords"]);
    ("Winter", ["winter boots"; "Chelsea boots"; "insulated sneakers"; "hiking boots"]) ].

Definition aestheticOptions : object (list string) :=
  [ ("casual", ["streetwear"; "Y2K"; "casual"; "everyday"; "relaxed"]);
    ("semi-formal", ["smart casual"; "chic"; "polished"; "refined"]);
    ("business-casual", ["professional"; "corporate"; "minimalist"; "classic"]);
    ("sports", ["athletic"; "sporty"; "performance"; "active"]) ].

(** [arr[Math.floor(Math.random() * arr.length)]].  On [undefined] reading
    [arr.length] throws.  On a built-in the length is a number or
    [undefined] and the indexed property does not exist. *)
Definition getRandomItem (arr : property (list string)) : rand (option string) :=
  r <- Math_random ;;
  match arr with
  | Own l => ret (nth_error l (floor_scale r (List.length l)))
  | Inherited => ret None
  | Undefined => throw_rand (TypeError "Cannot read properties of undefined (reading 'length')")
  end.

(** The argument object of [generateMockAnalysis]; [None] for [season] or
    [formality] is [undefined], which selects the default of the parameter
    list. *)
Record MockParams : Type := {
  topUrl : option string;
  topLayerUrl : option string;
  bottomUrl : option string;
  shoesUrl : option string;
  accessoriesUrl : option string;
  param_season : option string;
  param_formality : option string
}.

Definition timestamp : Type := N.

(** The object returned by [generateMockAnalysis].  [confidence] is kept in
    hundredths: 85 for 0.85. *)
Record Analysis : Type := {
  top : option string;
  topLayer : option string;
  bottom : option string;
  shoes : option string;
  accessories : list string;
  aesthetic : list (option string);
  colors : object (option string);
  ai_description : string;
  accessories_description : option string;
  accessories_tags : list string;
  ai_image_url : string;
  season : string;
  formality : string;
  confidence_percent : nat;
  analysis_timestamp : timestamp
}.

Definition mock_image_url : string :=
  "data:image/svg+xml,%3Csvg xmlns='http://www.w3.org/2000/svg' width='400' height='600' viewBox='0 0 400 600'%3E%3Crect fill='%23334155' width='400' height='600'/%3E%3Ctext x='50%25' y='45%25' font-family='Arial, sans-serif' font-size='24' fill='%238B5CF6' text-anchor='middle' dominant-baseline='middle'%3E🔥 AI Generated%3C/text%3E%3Ctext x='50%25' y='55%25' font-family='Arial, sans-serif' font-size='18' fill='%2394A3B8' text-anchor='middle' dominant-baseline='middle'%3EOutfit Preview%3C/text%3E%3C/svg%3E".

(** [if (v) parts.push(f v)] *)
Definition push_if (v : option string) (f : string -> string) (parts : list string) : list string :=
  match v with
  | Some s => if truthy v then push parts (f s) else parts
  | None => parts
  end.

Definition buildDescription (top topLayer bottom shoes : option string)
    (accessories : list string) : string :=
  let parts := [] in
  let parts := push_if top (fun s => s) parts in
  let parts := push_if topLayer (fun s => "with " ++ s) parts in
  let parts := push_if bottom (fun s => s) parts in
  let parts := push_if shoes (fun s => s) parts in
  let parts :=
    if (0 <? List.length accessories)%nat
    then push parts ("accessorized with " ++ String.concat ", " accessories)
    else parts in
  String.concat ", " parts.

(** [url ? getRandomItem(table[season]) : null] *)
Definition describe (url : option string) (table : object (list string))
    (season : string) : rand (option string) :=
  if truthy url then getRandomItem (js_get table season) else ret None.

(** [seasonPreset.recommendedColors[i]] *)
Definition preset_color (seasonPreset : property SeasonPreset) (i : nat)
    : result (option string) :=
  cs <- field recommendedColors seasonPreset ;; index i cs.

(** [v || 'neutral'] *)
Definition or_neutral (v : option string) : option string :=
  if truthy v then v else Some "neutral".

(** A parameter with a default: [name = 'value'] in the parameter list. *)
Definition default_to (value : string) (v : option string) : string :=
  match v with
  | Some s => s
  | None => value
  end.

Definition generateMockAnalysis (now : timestamp) (p : MockParams) : rand Analysis :=
  let season := default_to "Fall" (param_season p) in
  let formality := default_to "casual" (param_formality p) in
  let seasonPreset := getSeasonPreset season in
  top <- describe (topUrl p) topDescriptions season ;;
  topLayer <- describe (topLayerUrl p) topLayerDescriptions season ;;
  bottom <- describe (bottomUrl p) bottomDescriptions season ;;
  shoes <- describe (shoesUrl p) shoesDescriptions season ;;
  accessoriesList <-
    (if truthy (accessoriesUrl p)
     then lift (a <- field recommendedAccessories seasonPreset ;; slice0 2 a)
     else ret []) ;;
  let baseAesthetic := js_or (js_get aestheticOptions formality)
                             (js_get aestheticOptions "casual") in
  seasonTags <- lift (a <- field preset_aesthetic seasonPreset ;; slice0 2 a) ;;
  formalityTag <- getRandomItem baseAesthetic ;;
  let aesthetic := push (map Some seasonTags) formalityTag in
  c_top <- lift (if truthy top then preset_color seasonPreset 0 else ret None) ;;
  c_topLayer <- lift (if truthy topLayer then preset_color seasonPreset 1 else ret None) ;;
  c_bottom <- lift (if truthy bottom then preset_color seasonPreset 2 else ret None) ;;
  c_shoes <- lift (if truthy shoes
                   then c <- preset_color seasonPreset 3 ;; ret (or_neutral c)
                   else ret None) ;;
  let colors :=
    [ ("top", c_top); ("topLayer", c_topLayer); ("bottom", c_bottom);
      ("shoes", c_shoes);
      ("accessories", if (0 <? List.length accessoriesList)%nat then Some "mixed metals" else None) ] in
  ret {| top := top;
         topLayer := topLayer;
         bottom := bottom;
         shoes := shoes;
         accessories := accessoriesList;
         aesthetic := aesthetic;
         colors := colors;
         ai_description := buildDescription top topLayer bottom shoes accessoriesList;
         accessories_description :=
           if (0 <? List.length accessoriesList)%nat
           then Some ("Accessorized with " ++ String.concat " and " accessoriesList)
           else None;
         accessories_tags := accessoriesList;
         ai_image_url := mock_image_url;
         season := season;
         formality := formality;
         confidence_percent := 85;
         analysis_timestamp := now |}.


(* ================================================================= *)
(** ** JSON payloads returned by the [analyze-fit] function *)

(** A parsed JSON value.  A number is [mantissa * 10 ^ exponent]; an object
    lists each key once. *)
#[local] Unset Elimination Schemes.
Inductive json : Type :=
| JNull
| JBool (b : bool)
| JNumber (mantissa exponent : Z)
| JString (s : string)
| JArray (items : list json)
| JObject (members : list (string * json)).
#[local] Set Elimination Schemes.

Definition json_truthy (v : json) : bool :=
  match v with
  | JNull => false
  | JBool b => b
  | JNumber m _ => negb (Z.eqb m 0)
  | JString s => negb (s =? "")
  | JArray _ => true
  | JObject _ => true
  end.

(** [v.key] for a key that no prototype defines; [None] is [undefined]. *)
Definition json_get (v : json) (key : string) : option json :=
  match v with
  | JObject members => own_property members key
  | _ => None
  end.

Definition defined_and_truthy (v : option json) : bool :=
  match v with
  | Some j => json_truthy j
  | None => false
  end.

(* ================================================================= *)
(** ** The records of src/services/outfitAPI.js *)

(** What [supabase-js] resolves to: [{ data, error }]. *)
Record reply (A : Type) : Type := { data : option A; error : option js_error }.
Arguments data {A} r.
Arguments error {A} r.

Module AnalyzePayload.
Record t : Type := {
  session_id : string;
  top_url : option string;
  top_layer_url : option string;
  bottom_url : option string;
  shoes_url : option string;
  accessories_url : option string;
  season : option string;
  formality : option string
}.
End AnalyzePayload.

(** The argument of [saveFit]. *)
Module Payload.
Record t : Type := {
  session_id : string;
  top_url : option string;
  top_layer_url : option string;
  bottom_url : option string;
  shoes_url : option string;
  accessories_url : option string;
  ai_description : option string;
  ai_image_url : option string;
  season : option string;
  formality : option string;
  aesthetic : option (list (option string));
  colors : option (object (option string));
  accessories_description : option string;
  accessories_tags : option (list string)
}.
End Payload.

(** [outfitData], and a stored outfit: [outfitData] with its [id]. *)
Module Outfit.
Record data : Type := {
  session_id : string;
  top_url : option string;
  top_layer_url : option string;
  bottom_url : option string;
  shoes_url : option string;
  accessories_url : option string;
  ai_description : option string;
  ai_image_url : option string;
  season : option string;
  formality : option string;
  aesthetic : list (option string);
  colors : object (option string);
  accessories_description : option string;
  accessories_tags : list string;
  saved : bool;
  created_at : timestamp
}.
Record t : Type := { id : string; fields : data }.
End Outfit.

Record File : Type := { name : string; size : N; type : string }.

(* ================================================================= *)
(** ** The stores, the Gateway and the environment of a call *)

Inductive gateway_call : Type :=
| FunctionsInvoke (function : string)
| TableInsert
| TableSelect (sessionId : string)
| TableDelete (outfitId : string)
| StorageUpload (filePath : string).

(** The backend table [outfits], the entry [saved_outfits] of
    [localStorage] ([None] before the first write), and the calls made to
    the Gateway so far. *)
Record World : Type := {
  db : list Outfit.t;
  cache : option (list Outfit.t);
  gateway_log : list gateway_call
}.

(** What one call of an operation reads from outside: the client clock at
    the first and at the second reading, whether the remote functions and
    the backend store answer during this call, the clock of the remote
    function, the id the database generates for a new row, and what
    [localStorage] does during this call: the exception raised by reading
    the entry and using it as a list (access denied, a value that does not
    parse, or one that is not the JSON of a list), and the exception raised
    by writing it (quota exceeded, storage disabled); [None] when the step
    goes through. *)
Record Env : Type := {
  now : timestamp;
  now_later : timestamp;
  functions_up : bool;
  store_up : bool;
  server_now : timestamp;
  new_uuid : string;
  local_read_error : option js_error;
  local_write_error : option js_error
}.

Definition io (A : Type) : Type := World -> result A * World.

#[export] Instance io_monad : Monad io := {
  ret := fun A (a : A) => fun w => (Ok a, w);
  bind := fun A B (m : io A) (f : A -> io B) => fun w =>
    match m w with
    | (Ok a, w') => f a w'
    | (Throw e, w') => (Throw e, w')
    end
}.

Definition throw {A} (e : js_error) : io A := fun w => (Throw e, w).

(** [try { body } catch (e) { handler e }] *)
Definition try_catch {A} (body : io A) (handler : js_error -> io A) : io A :=
  fun w =>
    match body w with
    | (Ok a, w') => (Ok a, w')
    | (Throw e, w') => handler e w'
    end.

Definition try_catch_rand {A} (body : rand A) (handler : js_error -> rand A) : rand A :=
  fun src k =>
    match body src k with
    | Ok r => Ok r
    | Throw e => handler e src k
    end.

Definition log_call (c : gateway_call) : io unit :=
  fun w => (Ok tt, {| db := db w; cache := cache w;
                      gateway_log := push (gateway_log w) c |}).

Definition read_db : io (list Outfit.t) := fun w => (Ok (db w), w).

Definition write_db (rows : list Outfit.t) : io unit :=
  fun w => (Ok tt, {| db := rows; cache := cache w; gateway_log := gateway_log w |}).

(** [JSON.parse(localStorage.getItem('saved_outfits') || '[]')]: it throws
    when the storage cannot be read or the entry does not parse. *)
Definition localStorage_get (env : Env) : io (list Outfit.t) :=
  fun w =>
    match local_read_error env with
    | Some e => (Throw e, w)
    | None => (Ok (match cache w with Some l => l | None => [] end), w)
    end.

(** [localStorage.setItem('saved_outfits', JSON.stringify(l))]: a write that
    throws leaves the entry as it was. *)
Definition localStorage_set (env : Env) (l : list Outfit.t) : io unit :=
  fun w =>
    match local_write_error env with
    | Some e => (Throw e, w)
    | None => (Ok tt, {| db := db w; cache := Some l; gateway_log := gateway_log w |})
    end.

(** The decimal rendering of a number inside a template literal. *)
Definition decimal (n : N) : string := NilZero.string_of_uint (N.to_uint n).

(* ================================================================= *)
(** ** The Gateway: the table [outfits] and the edge functions *)

Inductive http_response (A : Type) : Type :=
| Http200 (body : A)
| HttpError (status : nat) (message : string).
Arguments Http200 {A} body.
Arguments HttpError {A} status message.

(** [supabase.functions.invoke]: a status outside 2xx becomes the [error]
    of the reply. *)
Definition reply_of_response {A} (r : http_response A) : reply A :=
  match r with
  | Http200 body => {| data := Some body; error := None |}
  | HttpError _ _ =>
      {| data := None;
         error := Some (FunctionsError "Edge Function returned a non-2xx status code") |}
  end.

Definition unreachable_function {A} : reply A :=
  {| data := None;
     error := Some (FunctionsError "Failed to send a request to the Edge Function") |}.

Definition unreachable_store {A} : reply A :=
  {| data := None; error := Some (PostgrestError "TypeError: Failed to fetch") |}.

(** [.insert(row).select().single()] on the table: the database generates
    the id and returns the stored row. *)
Definition insert_row (uuid : string) (row : Outfit.data) (rows : list Outfit.t)
    : Outfit.t * list Outfit.t :=
  let stored := {| Outfit.id := uuid; Outfit.fields := row |} in
  (stored, push rows stored).

Definition created_at_of (o : Outfit.t) : timestamp := Outfit.created_at (Outfit.fields o).

(** [.order('created_at', { ascending: false })] *)
Fixpoint insert_desc (o : Outfit.t) (sorted : list Outfit.t) : list Outfit.t :=
  match sorted with
  | [] => [o]
  | x :: rest =>
      if (created_at_of x <=? created_at_of o)%N
      then o :: x :: rest
      else x :: insert_desc o rest
  end.

Definition order_desc (rows : list Outfit.t) : list Outfit.t :=
  fold_right insert_desc [] rows.

(** [.select('*').eq('session_id', sessionId).eq('saved', true)
     .order('created_at', { ascending: false })] *)
Definition select_saved (sessionId : string) (rows : list Outfit.t) : list Outfit.t :=
  order_desc
    (filter (fun o => (Outfit.session_id (Outfit.fields o) =? sessionId)
                      && Bool.eqb (Outfit.saved (Outfit.fields o)) true) rows).

(** [.delete().eq('id', outfitId)] *)
Definition delete_rows (outfitId : string) (rows : list Outfit.t) : list Outfit.t :=
  filter (fun o => negb (Outfit.id o =? outfitId)) rows.

(** [v || null] *)
Definition or_null (v : option string) : option string :=
  if truthy v then v else None.

(** The edge function [save-fit]: rejects a missing [session_id], normalises
    the fields, stamps the row with its own clock and inserts it. *)
Definition save_fit_handler (env : Env) (body : Outfit.data) (rows : list Outfit.t)
    : http_response Outfit.t * list Outfit.t :=
  if negb (truthy (Some (Outfit.session_id body)))
  then (HttpError 400 "session_id is required", rows)
  else
    let outfitData := {|
      Outfit.session_id := Outfit.session_id body;
      Outfit.top_url := or_null (Outfit.top_url body);
      Outfit.top_layer_url := or_null (Outfit.top_layer_url body);
      Outfit.bottom_url := or_null (Outfit.bottom_url body);
      Outfit.shoes_url := or_null (Outfit.shoes_url body);
      Outfit.accessories_url := or_null (Outfit.accessories_url body);
      Outfit.ai_description := or_null (Outfit.ai_description body);
      Outfit.ai_image_url := or_null (Outfit.ai_image_url body);
      Outfit.season := or_null (Outfit.season body);
      Outfit.formality := or_null (Outfit.formality body);
      Outfit.aesthetic := Outfit.aesthetic body;
      Outfit.colors := Outfit.colors body;
      Outfit.accessories_description := or_null (Outfit.accessories_description body);
      Outfit.accessories_tags := Outfit.accessories_tags body;
      Outfit.saved := true;
      Outfit.created_at := server_now env |} in
    let (stored, rows') := insert_row (new_uuid env) outfitData rows in
    (Http200 stored, rows').

(** The edge function [getSavedFits]: it reads [session_id] from the query
    string of the request URL. *)
Definition getSavedFits_handler (query_session_id : option string) (rows : list Outfit.t)
    : http_response (list Outfit.t) :=
  match query_session_id with
  | Some sessionId =>
      if truthy query_session_id
      then Http200 (select_saved sessionId rows)
      else HttpError 400 "session_id query parameter is required"
  | None => HttpError 400 "session_id query parameter is required"
  end.

(** [supabase.functions.invoke('save-fit', { body: outfitData })] *)
Definition invoke_save_fit (env : Env) (body : Outfit.data) : io (reply Outfit.t) :=
  _ <- log_call (FunctionsInvoke "save-fit") ;;
  if functions_up env then
    rows <- read_db ;;
    let (response, rows') := save_fit_handler env body rows in
    _ <- write_db rows' ;;
    ret (reply_of_response response)
  else ret unreachable_function.

(** [supabase.functions.invoke('getSavedFits', { body: { session_id } })]:
    the request is a POST that carries [session_id] in its JSON body; its
    URL has no query string. *)
Definition invoke_getSavedFits (env : Env) (body_session_id : string)
    : io (reply (list Outfit.t)) :=
  _ <- log_call (FunctionsInvoke "getSavedFits") ;;
  if functions_up env then
    rows <- read_db ;;
    ret (reply_of_response (getSavedFits_handler None rows))
  else ret unreachable_function.

(** [supabase.from('outfits').insert(outfitData).select().single()] *)
Definition from_outfits_insert (env : Env) (outfitData : Outfit.data) : io (reply Outfit.t) :=
  _ <- log_call TableInsert ;;
  if store_up env then
    rows <- read_db ;;
    let (stored, rows') := insert_row (new_uuid env) outfitData rows in
    _ <- write_db rows' ;;
    ret {| data := Some stored; error := None |}
  else ret unreachable_store.

(** [supabase.from('outfits').select('*').eq(...).eq(...).order(...)] *)
Definition from_outfits_select (env : Env) (sessionId : string) : io (reply (list Outfit.t)) :=
  _ <- log_call (TableSelect sessionId) ;;
  if store_up env then
    rows <- read_db ;;
    ret {| data := Some (select_saved sessionId rows); error := None |}
  else ret unreachable_store.

(** [supabase.from('outfits').delete().eq('id', outfitId)] *)
Definition from_outfits_delete (env : Env) (outfitId : string) : io (reply unit) :=
  _ <- log_call (TableDelete outfitId) ;;
  if store_up env then
    rows <- read_db ;;
    _ <- write_db (delete_rows outfitId rows) ;;
    ret {| data := None; error := None |}
  else ret unreachable_store.

(** [if (error) throw error], then a use of [data.<property>], then
    [return data]. *)
Definition data_or_throw {A} (r : reply A) (property : string) : io A :=
  match error r with
  | Some e => throw e
  | None =>
      match data r with
      | Some d => ret d
      | None => throw (TypeError ("Cannot read properties of null (reading '" ++ property ++ "')"))
      end
  end.

(* ================================================================= *)
(** ** src/services/outfitAPI.js and src/lib/storage.js *)

(** What an upload reads from outside: the clock, the [error] of the reply
    of [supabase.storage.from('outfit-images').upload(...)] ([None] when the
    object was stored), and [getPublicUrl]. *)
Record StorageEnv : Type := {
  upload_now : timestamp;
  upload_error : option js_error;
  getPublicUrl : string -> string
}.

(** The characters that [/[^a-zA-Z0-9.-]/g] leaves in place. *)
Definition kept_in_file_name (c : ascii) : bool :=
  let n := nat_of_ascii c in
  ((97 <=? n) && (n <=? 122) || (65 <=? n) && (n <=? 90) || (48 <=? n) && (n <=? 57)
   || (n =? 46) || (n =? 45))%nat.

(** [name.replace(/[^a-zA-Z0-9.-]/g, '_')] *)
Fixpoint replace_unsafe (name : string) : string :=
  match name with
  | EmptyString => EmptyString
  | String c rest =>
      String (if kept_in_file_name c then c else "_"%char) (replace_unsafe rest)
  end.

(** [const { data, error } = await supabase.storage.from('outfit-images')
      .upload(filePath, file, ...); if (error) throw error] *)
Definition storage_upload (env : StorageEnv) (filePath : string) : result unit :=
  match upload_error env with
  | Some e => Throw e
  | None => Ok tt
  end.

Definition try_catch_result {A} (body : result A) (handler : js_error -> result A)
    : result A :=
  match body with
  | Ok a => Ok a
  | Throw e => handler e
  end.

Definition uploadFile (env : StorageEnv) (file : option File) (category sessionId : string)
    : result string :=
  try_catch_result
    (match file with
     | None => Throw (Error "No file provided")
     | Some f =>
         let timestamp := upload_now env in
         let fileName := decimal timestamp ++ "_" ++ replace_unsafe (name f) in
         let filePath := sessionId ++ "/originals/" ++ category ++ "_" ++ fileName in
         _ <- storage_upload env filePath ;;
         ret (getPublicUrl env filePath)
     end)
    (fun error => Throw error).

(** src/lib/storage.js: the helper catches every error and returns [null]. *)
Definition uploadOutfitImage (env : StorageEnv) (file : option File) (category : string)
    : result (option string) :=
  try_catch_result
    (match file with
     | None => ret None
     | Some f =>
         let filePath := category ++ "/" ++ decimal (upload_now env) ++ "_" ++ name f in
         _ <- storage_upload env filePath ;;
         ret (Some (getPublicUrl env filePath))
     end)
    (fun error => Ok None).

(** [data && (data.top || data.ai_description)] *)
Definition has_description (d : option json) : bool :=
  match d with
  | Some j =>
      json_truthy j
      && (defined_and_truthy (json_get j "top")
          || defined_and_truthy (json_get j "ai_description"))
  | None => false
  end.

(** What [analyzeFit] resolves to: the payload of the edge function, or the
    object built by [generateMockAnalysis]. *)
Inductive AnalysisResult : Type :=
| FromEdgeFunction (payload : json)
| FromMock (mockResult : Analysis).

(** [edge] is the reply of
    [supabase.functions.invoke('analyze-fit', { body: payload })].  The
    inner [try] returns from the function with [Some data]; its [catch]
    only logs, which is [None] here. *)
Definition analyzeFit (edge : reply json) (clock : timestamp) (payload : AnalyzePayload.t)
    : rand AnalysisResult :=
  try_catch_rand
    (returned <-
       try_catch_rand
         (match error edge with
          | Some e => throw_rand e
          | None =>
              if has_description (data edge)
              then ret (data edge)
              else throw_rand (Error "Empty response from Edge Function")
          end)
         (fun edgeFunctionError => ret None) ;;
     match returned with
     | Some d => ret (FromEdgeFunction d)
     | None =>
         mockResult <- generateMockAnalysis clock {|
           topUrl := AnalyzePayload.top_url payload;
           topLayerUrl := AnalyzePayload.top_layer_url payload;
           bottomUrl := AnalyzePayload.bottom_url payload;
           shoesUrl := AnalyzePayload.shoes_url payload;
           accessoriesUrl := AnalyzePayload.accessories_url payload;
           param_season := AnalyzePayload.season payload;
           param_formality := AnalyzePayload.formality payload |} ;;
         ret (FromMock mockResult)
     end)
    (fun error => throw_rand error).

(** [v || []] and [v || {}] *)
Definition or_empty {A} (v : option (list A)) : list A :=
  match v with
  | Some l => l
  | None => []
  end.

Definition outfitData_of (env : Env) (payload : Payload.t) : Outfit.data := {|
  Outfit.session_id := Payload.session_id payload;
  Outfit.top_url := Payload.top_url payload;
  Outfit.top_layer_url := Payload.top_layer_url payload;
  Outfit.bottom_url := Payload.bottom_url payload;
  Outfit.shoes_url := Payload.shoes_url payload;
  Outfit.accessories_url := Payload.accessories_url payload;
  Outfit.ai_description := Payload.ai_description payload;
  Outfit.ai_image_url := Payload.ai_image_url payload;
  Outfit.season := Payload.season payload;
  Outfit.formality := Payload.formality payload;
  Outfit.aesthetic := or_empty (Payload.aesthetic payload);
  Outfit.colors := or_empty (Payload.colors payload);
  Outfit.accessories_description := Payload.accessories_description payload;
  Outfit.accessories_tags := or_empty (Payload.accessories_tags payload);
  Outfit.saved := true;
  Outfit.created_at := now env |}.

Definition saveFit (env : Env) (payload : Payload.t) : io Outfit.t :=
  try_catch
    (let outfitData := outfitData_of env payload in
     try_catch
       (r <- invoke_save_fit env outfitData ;;
        data_or_throw r "id")
       (fun edgeFunctionError =>
          try_catch
            (r <- from_outfits_insert env outfitData ;;
             data_or_throw r "id")
            (fun supabaseError =>
               localOutfits <- localStorage_get env ;;
               let localOutfit := {|
                 Outfit.id := "local_" ++ decimal (now_later env);
                 Outfit.fields := outfitData |} in
               _ <- localStorage_set env (push localOutfits localOutfit) ;;
               ret localOutfit)))
    (fun error => throw error).

Definition getSavedFits (env : Env) (sessionId : string) : io (list Outfit.t) :=
  try_catch
    (try_catch
       (r <- invoke_getSavedFits env sessionId ;;
        data_or_throw r "length")
       (fun edgeFunctionError =>
          try_catch
            (r <- from_outfits_select env sessionId ;;
             data_or_throw r "length")
            (fun supabaseError =>
               localOutfits <- localStorage_get env ;;
               let sessionOutfits :=
                 filter (fun outfit => Outfit.session_id (Outfit.fields outfit) =? sessionId)
                        localOutfits in
               ret sessionOutfits)))
    (fun error => ret []).

Definition deleteOutfit (env : Env) (outfitId : string) : io bool :=
  try_catch
    (if negb (String.prefix "local_" outfitId) then
       r <- from_outfits_delete env outfitId ;;
       match error r with
       | Some e => throw e
       | None => ret true
       end
     else
       localOutfits <- localStorage_get env ;;
       let updatedOutfits :=
         filter (fun outfit => negb (Outfit.id outfit =? outfitId)) localOutfits in
       _ <- localStorage_set env updatedOutfits ;;
       ret true)
    (fun error => ret false).

(* ================================================================= *)
(** ** Vocabulary of the statements *)

Definition valid_seasons : list string := ["Spring"; "Summer"; "Fall"; "Winter"].

Definition valid_formalities : list string :=
  ["casual"; "semi-formal"; "business-casual"; "sports"].

Definition recognized_season (s : string) : bool := existsb (String.eqb s) valid_seasons.

Definition inherited_key (s : string) : bool := existsb (String.eqb s) Object_prototype_keys.

(** A candidate list of the generator: not empty, and no entry is the empty
    string. *)
Definition candidates (l : list string) : Prop :=
  l <> [] /\ Forall (fun s => truthy (Some s) = true) l.

(** [seasonPreset.recommendedColors[i]] for a populated slot, [null]
    otherwise. *)
Definition slot_color (populated : bool) (P : SeasonPreset) (i : nat) : option string :=
  if populated then nth_error (recommendedColors P) i else None.

(** The five garment slots with the image reference of each. *)
Definition image_slots (p : MockParams) : list (string * option string) :=
  [ ("top", topUrl p); ("topLayer", topLayerUrl p); ("bottom", bottomUrl p);
    ("shoes", shoesUrl p); ("accessories", accessoriesUrl p) ].

(** [colors[slot]] *)
Definition color_entry (a : Analysis) (slot : string) : option string :=
  match own_property (colors a) slot with
  | Some v => v
  | None => None
  end.

(** Some garment slot whose description is drawn at random has an image. *)
Definition garment_populated (p : MockParams) : bool :=
  truthy (topUrl p) || truthy (topLayerUrl p) || truthy (bottomUrl p) || truthy (shoesUrl p).

(** The outfits of [localStorage.saved_outfits]. *)
Definition cached (w : World) : list Outfit.t :=
  match cache w with
  | Some l => l
  | None => []
  end.

(** The save reaches the backend table: the remote function accepts the
    request, or the direct insert goes through. *)
Definition reaches_backend (env : Env) (payload : Payload.t) : bool :=
  functions_up env && truthy (Some (Payload.session_id payload)) || store_up env.

(** The row written by the edge function [save-fit]. *)
Definition remote_row (env : Env) (payload : Payload.t) : Outfit.t :=
  let body := outfitData_of env payload in
  {| Outfit.id := new_uuid env;
     Outfit.fields := {|
       Outfit.session_id := Outfit.session_id body;
       Outfit.top_url := or_null (Outfit.top_url body);
       Outfit.top_layer_url := or_null (Outfit.top_layer_url body);
       Outfit.bottom_url := or_null (Outfit.bottom_url body);
       Outfit.shoes_url := or_null (Outfit.shoes_url body);
       Outfit.accessories_url := or_null (Outfit.accessories_url body);
       Outfit.ai_description := or_null (Outfit.ai_description body);
       Outfit.ai_image_url := or_null (Outfit.ai_image_url body);
       Outfit.season := or_null (Outfit.season body);
       Outfit.formality := or_null (Outfit.formality body);
       Outfit.aesthetic := Outfit.aesthetic body;
       Outfit.colors := Outfit.colors body;
       Outfit.accessories_description := or_null (Outfit.accessories_description body);
       Outfit.accessories_tags := Outfit.accessories_tags body;
       Outfit.saved := true;
       Outfit.created_at := server_now env |} |}.

(** The row written by the direct insert, and the outfit written to the
    local cache. *)
Definition direct_row (env : Env) (payload : Payload.t) : Outfit.t :=
  {| Outfit.id := new_uuid env; Outfit.fields := outfitData_of env payload |}.

Definition local_outfit (env : Env) (payload : Payload.t) : Outfit.t :=
  {| Outfit.id := "local_" ++ decimal (now_later env);
     Outfit.fields := outfitData_of env payload |}.

Definition of_session (sessionId : string) (o : Outfit.t) : bool :=
  Outfit.session_id (Outfit.fields o) =? sessionId.

(** Newest first: along the list [created_at] never increases. *)
Definition newest_first (l : list Outfit.t) : Prop :=
  StronglySorted (fun a b => (created_at_of b <= created_at_of a)%N) l.

(** The exception that the local tier of a save or of a delete meets, if
    any: the entry is read before it is written. *)
Definition local_error (env : Env) : option js_error :=
  match local_read_error env with
  | Some e => Some e
  | None => local_write_error env
  end.

(** What the local tier of a fetch has to filter: the cached outfits, or
    nothing when the entry cannot be read (the fetch then resolves to the
    empty list). *)
Definition cache_seen (env : Env) (w : World) : list Outfit.t :=
  match local_read_error env with
  | Some _ => []
  | None => cached w
  end.

(** Concrete inputs used below. *)
Definition offline (t : timestamp) : Env := {|
  now := t; now_later := (t + 1)%N; functions_up := false; store_up := false;
  server_now := t; new_uuid := "00000000-0000-4000-8000-000000000000";
  local_read_error := None; local_write_error := None |}.

Definition online (t : timestamp) (uuid : string) : Env := {|
  now := t; now_later := (t + 1)%N; functions_up := true; store_up := true;
  server_now := (t + 5)%N; new_uuid := uuid;
  local_read_error := None; local_write_error := None |}.

(** The Gateway is down and [localStorage] is full. *)
Definition offline_storage_full (t : timestamp) : Env := {|
  now := t; now_later := (t + 1)%N; functions_up := false; store_up := false;
  server_now := t; new_uuid := "00000000-0000-4000-8000-000000000000";
  local_read_error := None;
  local_write_error :=
    Some (DOMException "QuotaExceededError"
            "Failed to execute 'setItem' on 'Storage': Setting the value of 'saved_outfits' exceeded the quota.") |}.

Definition empty_world : World := {| db := []; cache := None; gateway_log := [] |}.

Definition fall_outfit (sessionId : string) : Payload.t := {|
  Payload.session_id := sessionId;
  Payload.top_url := None;
  Payload.top_layer_url := None;
  Payload.bottom_url := Some "https://cdn.example/s1/originals/bottom_1.png";
  Payload.shoes_url := None;
  Payload.accessories_url := None;
  Payload.ai_description := Some "dark jeans";
  Payload.ai_image_url := Some mock_image_url;
  Payload.season := Some "Fall";
  Payload.formality := Some "casual";
  Payload.aesthetic := Some [Some "earthy"; Some "layered"; Some "casual"];
  Payload.colors := Some [("top", None); ("topLayer", None); ("bottom", Some "burgundy");
                          ("shoes", None); ("accessories", None)];
  Payload.accessories_description := None;
  Payload.accessories_tags := Some [] |}.

(** The argument that [analyzeFit] passes to [generateMockAnalysis]. *)
Definition mock_params_of (payload : AnalyzePayload.t) : MockParams := {|
  topUrl := AnalyzePayload.top_url payload;
  topLayerUrl := AnalyzePayload.top_layer_url payload;
  bottomUrl := AnalyzePayload.bottom_url payload;
  shoesUrl := AnalyzePayload.shoes_url payload;
  accessoriesUrl := AnalyzePayload.accessories_url payload;
  param_season := AnalyzePayload.season payload;
  param_formality := AnalyzePayload.formality payload |}.

(** The remote tier of [analyzeFit] succeeded: no error, and a payload with
    a truthy [top] or [ai_description]. *)
Definition edge_served (edge : reply json) : bool :=
  match error edge with
  | Some _ => false
  | None => has_description (data edge)
  end.

(** The outcome of the mock tier, as [analyzeFit] returns it. *)
Definition mock_outcome (r : result (Analysis * nat)) : result (AnalysisResult * nat) :=
  match r with
  | Ok (a, k) => Ok (FromMock a, k)
  | Throw e => Throw e
  end.

(** The path that [uploadFile] stores the file under. *)
Definition upload_path (env : StorageEnv) (f : File) (category sessionId : string) : string :=
  sessionId ++ "/originals/" ++ category ++ "_" ++ decimal (upload_now env) ++ "_"
  ++ replace_unsafe (name f).

(** The world after two saves that both fell back to the local cache, at
    times 1000 and 2000. *)
Definition two_local_saves : World :=
  snd (saveFit (offline 2000%N) (fall_outfit "s1")
         (snd (saveFit (offline 1000%N) (fall_outfit "s1") empty_world))).

Definition fall_bottom_params : MockParams := {|
  topUrl := None; topLayerUrl := None;
  bottomUrl := Some "https://cdn.example/s1/originals/bottom_1.png";
  shoesUrl := None; accessoriesUrl := None;
  param_season := Some "Fall"; param_formality := Some "casual" |}.

Definition spring_every_slot : MockParams := {|
  topUrl := Some "https://cdn.example/s1/originals/top_1.png";
  topLayerUrl := Some "https://cdn.example/s1/originals/topLayer_1.png";
  bottomUrl := Some "https://cdn.example/s1/originals/bottom_1.png";
  shoesUrl := Some "https://cdn.example/s1/originals/shoes_1.png";
  accessoriesUrl := Some "https://cdn.example/s1/originals/accessories_1.png";
  param_season := Some "Spring"; param_formality := Some "sports" |}.

Definition no_image_params : MockParams := {|
  topUrl := None; topLayerUrl := None; bottomUrl := None; shoesUrl := None;
  accessoriesUrl := None;
  param_season := Some "Fall"; param_formality := Some "casual" |}.

Definition autumn_payload : AnalyzePayload.t := {|
  AnalyzePayload.session_id := "s1";
  AnalyzePayload.top_url := Some "https://cdn.example/s1/originals/top_1.png";
  AnalyzePayload.top_layer_url := None;
  AnalyzePayload.bottom_url := None;
  AnalyzePayload.shoes_url := None;
  AnalyzePayload.accessories_url := None;
  AnalyzePayload.season := Some "Autumn";
  AnalyzePayload.formality := Some "casual" |}.

(** A source of draws that always returns [n / (n + s + 1)]. *)
Definition constant_source (n s : nat) : random_source :=
  fun _ => {| num := n; slack := s |}.

(* ================================================================= *)
(** ** src/utils/seasonPresets.js: formality levels, current season,
       combined preset *)

Record FormalityLevel : Type := {
  label : string;
  level_description : string;
  examples : list string
}.

Definition FORMALITY_LEVELS : object FormalityLevel :=
  [ ("casual", {| label := "Casual";
                  level_description := "Jeans, sneakers, t-shirts, hoodies";
                  examples := ["streetwear"; "athleisure"; "everyday"] |});
    ("semi-formal", {| label := "Semi-Formal";
                       level_description := "Skirts, blouses, dress pants, loafers";
                       examples := ["smart casual"; "date night"; "brunch"] |});
    ("business-casual", {| label := "Business Casual";
                           level_description := "Slacks, button-ups, blazers, dress shoes";
                           examples := ["office wear"; "professional"; "meetings"] |});
    ("sports", {| label := "Sports/Active";
                  level_description := "Activewear, athletic shoes, performance fabrics";
                  examples := ["gym"; "running"; "yoga"; "outdoor activities"] |}) ].

(** [getCurrentSeason()], with [getMonth] the value of
    [new Date().getMonth()], which is 0 for January. *)
Definition getCurrentSeason (getMonth : nat) : string :=
  let month := (getMonth + 1)%nat in
  if ((3 <=? month) && (month <=? 5))%nat then "Spring"
  else if ((6 <=? month) && (month <=? 8))%nat then "Summer"
  else if ((9 <=? month) && (month <=? 11))%nat then "Fall"
  else "Winter".

(** The own properties that a spread [...o] copies: those of an object
    literal; a built-in has none that are enumerable. *)
Definition spread {A} (o : property A) : option A :=
  match o with
  | Own a => Some a
  | Inherited => None
  | Undefined => None
  end.

(** A property value that is a string or [undefined]. *)
Definition value_or_undefined {A} (v : property A) : option A :=
  match v with
  | Own a => Some a
  | Inherited => None
  | Undefined => None
  end.

(** The object returned by [getMockPreset]: the fields spread from the
    season preset, then [formality], [formalityDescription] and
    [formalityExamples]. *)
Record MockPreset : Type := {
  seasonData : option SeasonPreset;
  formality_label : option string;
  formalityDescription : option string;
  formalityExamples : option (list string)
}.

Definition getMockPreset (season : string) (formality : option string) : result MockPreset :=
  let formality := default_to "casual" formality in
  let seasonData := getSeasonPreset season in
  let formalityData := js_or (js_get FORMALITY_LEVELS formality)
                             (js_get FORMALITY_LEVELS "casual") in
  l <- field label formalityData ;;
  d <- field level_description formalityData ;;
  e <- field examples formalityData ;;
  ret {| seasonData := spread seasonData;
         formality_label := value_or_undefined l;
         formalityDescription := value_or_undefined d;
         formalityExamples := value_or_undefined e |}.

(* ================================================================= *)
(** ** The edge function [upload-file] *)

(** The handler reads [file], [category] and [session_id] from the form
    data, stores the file and answers with its public URL. *)
Definition upload_file_handler (env : StorageEnv) (file : option File)
    (category sessionId : option string) : http_response string :=
  match file, category, sessionId with
  | Some f, Some c, Some s =>
      if negb (truthy category) || negb (truthy sessionId)
      then HttpError 400 "file, category, and session_id are required"
      else
        let timestamp := upload_now env in
        let fileName := replace_unsafe (name f) in
        let filePath := s ++ "/originals/" ++ c ++ "_" ++ decimal timestamp ++ "_" ++ fileName in
        match storage_upload env filePath with
        | Throw e => HttpError 500 "Failed to upload file"
        | Ok _ => Http200 (getPublicUrl env filePath)
        end
  | _, _, _ => HttpError 400 "file, category, and session_id are required"
  end.

(* ================================================================= *)
(** ** src/pages/UploadFitPage.jsx: the handlers of the page *)

(** [{ ...o, [key]: v }]: an existing key keeps its place, a new key goes
    last.  (Keys that look like array indices, which JavaScript lists first,
    do not occur.) *)
Fixpoint js_set {A} (o : object A) (key : string) (v : A) : object A :=
  match o with
  | [] => [(key, v)]
  | (k, x) :: rest =>
      if k =? key then (k, v) :: rest else (k, x) :: js_set rest key v
  end.

(** The state of the page that the handlers read and set. *)
Module Page.
Record t : Type := {
  uploads : object (option File);
  previewUrls : object (option string);
  uploadedUrls : object (option string);
  analyzing : bool;
  saving : bool;
  error : option string;
  analysis : option AnalysisResult;
  savedSuccess : bool;
  season : string;
  formality : string
}.
End Page.

(** [err.message] *)
Definition message (e : js_error) : string :=
  match e with
  | TypeError m => m
  | Error m => m
  | StorageError m => m
  | FunctionsError m => m
  | PostgrestError m => m
  | SyntaxError m => m
  | DOMException _ m => m
  end.

(** [5 * 1024 * 1024] *)
Definition max_file_size : N := 5242880%N.

(** [handleFileSelect(category, event)], with [file] the value of
    [event.target.files[0]] and [createObjectURL] that of
    [URL.createObjectURL]. *)
Definition handleFileSelect (createObjectURL : File -> string) (category : string)
    (file : option File) (st : Page.t) : Page.t :=
  match file with
  | None => st
  | Some f =>
      if negb (String.prefix "image/" (type f)) then
        {| Page.uploads := Page.uploads st; Page.previewUrls := Page.previewUrls st;
           Page.uploadedUrls := Page.uploadedUrls st; Page.analyzing := Page.analyzing st;
           Page.saving := Page.saving st;
           Page.error := Some (category ++ " must be an image file");
           Page.analysis := Page.analysis st; Page.savedSuccess := Page.savedSuccess st;
           Page.season := Page.season st; Page.formality := Page.formality st |}
      else if (max_file_size <? size f)%N then
        {| Page.uploads := Page.uploads st; Page.previewUrls := Page.previewUrls st;
           Page.uploadedUrls := Page.uploadedUrls st; Page.analyzing := Page.analyzing st;
           Page.saving := Page.saving st;
           Page.error := Some (category ++ " image must be less than 5MB");
           Page.analysis := Page.analysis st; Page.savedSuccess := Page.savedSuccess st;
           Page.season := Page.season st; Page.formality := Page.formality st |}
      else
        {| Page.uploads := js_set (Page.uploads st) category (Some f);
           Page.previewUrls := js_set (Page.previewUrls st) category (Some (createObjectURL f));
           Page.uploadedUrls := Page.uploadedUrls st; Page.analyzing := Page.analyzing st;
           Page.saving := Page.saving st;
           Page.error := None;
           Page.analysis := Page.analysis st; Page.savedSuccess := Page.savedSuccess st;
           Page.season := Page.season st; Page.formality := Page.formality st |}
  end.

(** The upload loop of [handleAnalyze]: every selected file is uploaded in
    the order of [Object.entries(uploads)]; a failed upload is logged and
    skipped. *)
Fixpoint upload_all (storage : string -> StorageEnv) (sessionId : string)
    (entries : list (string * option File)) (urls : object string) : object string :=
  match entries with
  | [] => urls
  | (category, file) :: rest =>
      let urls' :=
        match file with
        | Some f =>
            match uploadFile (storage category) (Some f) category sessionId with
            | Ok url => js_set urls category url
            | Throw uploadError => urls
            end
        | None => urls
        end in
      upload_all storage sessionId rest urls'
  end.

(** [analysisPayload]: [urls.top || null] and so on. *)
Definition analysisPayload_of (sessionId : string) (urls : object string)
    (season formality : string) : AnalyzePayload.t := {|
  AnalyzePayload.session_id := sessionId;
  AnalyzePayload.top_url := or_null (own_property urls "top");
  AnalyzePayload.top_layer_url := or_null (own_property urls "topLayer");
  AnalyzePayload.bottom_url := or_null (own_property urls "bottom");
  AnalyzePayload.shoes_url := or_null (own_property urls "shoes");
  AnalyzePayload.accessories_url := or_null (own_property urls "accessories");
  AnalyzePayload.season := Some season;
  AnalyzePayload.formality := Some formality |}.

(** [Object.values(uploads).some(file => file !== null)] *)
Definition hasAnyImage (uploads : object (option File)) : bool :=
  existsb (fun entry => match snd entry with Some _ => true | None => false end) uploads.

(** [err.message || fallback] *)
Definition message_or (fallback : string) (e : js_error) : string :=
  if truthy (Some (message e)) then message e else fallback.

(** [handleAnalyze()].  [storage] gives the environment of the upload of
    each category, [edge] the reply of the [analyze-fit] function, and
    [updatePreferences] the error that the session hook rejects with, if
    any.  The result is the state once the handler has returned. *)
Definition handleAnalyze (sessionId : string) (storage : string -> StorageEnv)
    (edge : reply json) (clock : timestamp) (updatePreferences : option js_error)
    (st : Page.t) (src : random_source) (k : nat) : Page.t :=
  if negb (hasAnyImage (Page.uploads st)) then
    {| Page.uploads := Page.uploads st; Page.previewUrls := Page.previewUrls st;
       Page.uploadedUrls := Page.uploadedUrls st; Page.analyzing := false;
       Page.saving := Page.saving st;
       Page.error := Some "Please upload at least one image to analyze";
       Page.analysis := Page.analysis st; Page.savedSuccess := Page.savedSuccess st;
       Page.season := Page.season st; Page.formality := Page.formality st |}
  else
    let urls := upload_all storage sessionId (Page.uploads st) [] in
    let analysisPayload :=
      analysisPayload_of sessionId urls (Page.season st) (Page.formality st) in
    let outcome :=
      match analyzeFit edge clock analysisPayload src k with
      | Ok (result, _) =>
          match updatePreferences with
          | None => (Some result, None)
          | Some err =>
              (Some result,
               Some (message_or "Failed to analyze outfit. Please try again." err))
          end
      | Throw err =>
          (None, Some (message_or "Failed to analyze outfit. Please try again." err))
      end in
    {| Page.uploads := Page.uploads st; Page.previewUrls := Page.previewUrls st;
       Page.uploadedUrls := map (fun entry => (fst entry, Some (snd entry))) urls;
       Page.analyzing := false;
       Page.saving := Page.saving st;
       Page.error := snd outcome;
       Page.analysis := fst outcome;
       Page.savedSuccess := false;
       Page.season := Page.season st; Page.formality := Page.formality st |}.

(* ================================================================= *)
(** ** src/components/FavoritesPage.jsx: loading and deleting *)

Module Favorites.
Record t : Type := {
  outfits : list Outfit.t;
  loading : bool;
  error : option string;
  selectedOutfit : option Outfit.t
}.
End Favorites.

Definition loadOutfits (env : Env) (sessionId : string) (st : Favorites.t) : io Favorites.t :=
  try_catch
    (savedOutfits <- getSavedFits env sessionId ;;
     ret {| Favorites.outfits := savedOutfits; Favorites.loading := false;
            Favorites.error := None;
            Favorites.selectedOutfit := Favorites.selectedOutfit st |})
    (fun err =>
       ret {| Favorites.outfits := Favorites.outfits st; Favorites.loading := false;
              Favorites.error := Some (message err);
              Favorites.selectedOutfit := Favorites.selectedOutfit st |}).

(** [selectedOutfit?.id === outfitId] *)
Definition is_selected (selected : option Outfit.t) (outfitId : string) : bool :=
  match selected with
  | Some o => Outfit.id o =? outfitId
  | None => false
  end.

(** [handleDelete(outfitId)], with [confirmed] the answer to [confirm]. *)
Definition handleDelete (confirmed : bool) (env : Env) (outfitId : string)
    (st : Favorites.t) : io Favorites.t :=
  if negb confirmed then ret st
  else
    try_catch
      (success <- deleteOutfit env outfitId ;;
       if (success : bool) then
         ret {| Favorites.outfits :=
                  filter (fun outfit => negb (Outfit.id outfit =? outfitId))
                         (Favorites.outfits st);
                Favorites.loading := Favorites.loading st;
                Favorites.error := Favorites.error st;
                Favorites.selectedOutfit :=
                  if is_selected (Favorites.selectedOutfit st) outfitId
                  then None else Favorites.selectedOutfit st |}
       else ret st)
      (fun err =>
         ret {| Favorites.outfits := Favorites.outfits st;
                Favorites.loading := Favorites.loading st;
                Favorites.error := Some (message err);
                Favorites.selectedOutfit := Favorites.selectedOutfit st |}).

(* ================================================================= *)
(** ** Further vocabulary of the statements *)

(** The id of an outfit tells its store: no row of the backend table has
    the local prefix, every entry of the local cache has it. *)
Definition ids_by_origin (w : World) : Prop :=
  Forall (fun o => String.prefix "local_" (Outfit.id o) = false) (db w)
  /\ Forall (fun o => String.prefix "local_" (Outfit.id o) = true) (cached w).

(** No text field of the payload is the empty string. *)
Definition no_empty_text (payload : Payload.t) : Prop :=
  Forall (fun v => v <> Some "")
    [ Payload.top_url payload; Payload.top_layer_url payload; Payload.bottom_url payload;
      Payload.shoes_url payload; Payload.accessories_url payload;
      Payload.ai_description payload; Payload.ai_image_url payload;
      Payload.season payload; Payload.formality payload;
      Payload.accessories_description payload ].

(** The number of garment slots (top, topLayer, bottom, shoes) with an
    image. *)
Definition garments_populated (p : MockParams) : nat :=
  List.length (filter truthy [topUrl p; topLayerUrl p; bottomUrl p; shoesUrl p]).

(** The characters of a string. *)
Fixpoint chars (s : string) : list ascii :=
  match s with
  | EmptyString => []
  | String c rest => c :: chars rest
  end.

(** A character that [replace_unsafe] can leave in a name: one it keeps, or
    the underscore it writes. *)
Definition safe_char (c : ascii) : bool :=
  kept_in_file_name c || Ascii.eqb c "_"%char.

(** An [outfitData] with another time stamp. *)
Definition with_created_at (t : timestamp) (d : Outfit.data) : Outfit.data := {|
  Outfit.session_id := Outfit.session_id d;
  Outfit.top_url := Outfit.top_url d;
  Outfit.top_layer_url := Outfit.top_layer_url d;
  Outfit.bottom_url := Outfit.bottom_url d;
  Outfit.shoes_url := Outfit.shoes_url d;
  Outfit.accessories_url := Outfit.accessories_url d;
  Outfit.ai_description := Outfit.ai_description d;
  Outfit.ai_image_url := Outfit.ai_image_url d;
  Outfit.season := Outfit.season d;
  Outfit.formality := Outfit.formality d;
  Outfit.aesthetic := Outfit.aesthetic d;
  Outfit.colors := Outfit.colors d;
  Outfit.accessories_description := Outfit.accessories_description d;
  Outfit.accessories_tags := Outfit.accessories_tags d;
  Outfit.saved := Outfit.saved d;
  Outfit.created_at := t |}.

(** The outfits whose id is not [outfitId]. *)
Definition without_id (outfitId : string) (l : list Outfit.t) : list Outfit.t :=
  filter (fun o => negb (Outfit.id o =? outfitId)) l.

(* ================================================================= *)
(** ** src/components/FitDisplay.jsx: the swatch of a color *)

Definition colorMap : object string :=
  [ ("white", "#FFFFFF"); ("black", "#000000"); ("gray", "#808080"); ("grey", "#808080");
    ("navy", "#000080"); ("blue", "#0000FF"); ("red", "#FF0000"); ("green", "#008000");
    ("yellow", "#FFFF00"); ("orange", "#FFA500"); ("purple", "#800080"); ("pink", "#FFC0CB");
    ("brown", "#8B4513");
    ("beige", "#F5F5DC"); ("cream", "#FFFDD0"); ("rust", "#B7410E"); ("olive", "#808000");
    ("burgundy", "#800020"); ("mustard", "#FFDB58"); ("turquoise", "#40E0D0");
    ("coral", "#FF7F50"); ("lavender", "#E6E6FA"); ("mint green", "#98FF98");
    ("pastel pink", "#FFD1DC"); ("forest green", "#228B22"); ("light wash", "#A4C2D8");
    ("neutral", "#D3D3D3");
    ("mixed metals", "linear-gradient(135deg, #D4AF37 0%, #C0C0C0 50%, #B87333 100%)") ].

(** [s.toLowerCase()] on a string of ASCII characters: the letters A to Z
    become a to z.  (A string here is a sequence of bytes; letters outside
    ASCII are not represented.) *)
Fixpoint toLowerCase (s : string) : string :=
  match s with
  | EmptyString => EmptyString
  | String c rest =>
      let n := nat_of_ascii c in
      String (if ((65 <=? n) && (n <=? 90))%nat then ascii_of_nat (n + 32) else c)
             (toLowerCase rest)
  end.

(** [getColorValue(colorName)]: [colorMap[lowerName] || '#CCCCCC'] *)
Definition getColorValue (colorName : string) : property string :=
  js_or (js_get colorMap (toLowerCase colorName)) (Own "#CCCCCC").

(* ================================================================= *)
(** ** Inputs of the further statements *)

Definition one_file_page (season : string) : Page.t := {|
  Page.uploads := [ ("top", None); ("topLayer", None);
                    ("bottom", Some {| name := "jeans.png"; size := 1024%N;
                                       type := "image/png" |});
                    ("shoes", None); ("accessories", None) ];
  Page.previewUrls := [ ("top", None); ("topLayer", None); ("bottom", Some "blob:1");
                        ("shoes", None); ("accessories", None) ];
  Page.uploadedUrls := [ ("top", None); ("topLayer", None); ("bottom", None);
                         ("shoes", None); ("accessories", None) ];
  Page.analyzing := false;
  Page.saving := false;
  Page.error := None;
  Page.analysis := None;
  Page.savedSuccess := false;
  Page.season := season;
  Page.formality := "casual" |}.

(** A storage that refuses every upload. *)
Definition storage_down (category : string) : StorageEnv := {|
  upload_now := 1000%N;
  upload_error := Some (StorageError "Failed to fetch");
  getPublicUrl := fun path => "https://cdn.example/" ++ path |}.

(* ================================================================= *)
(** * Properties *)

(** ** The generator on small inputs *)

Example mock_fall_sports :
  generateMockAnalysis 5%N
    {| topUrl := Some "t.png"; topLayerUrl := None; bottomUrl := Some "b.png";
       shoesUrl := None; accessoriesUrl := Some "a.png";
       param_season := None; param_formality := Some "sports" |}
    (constant_source 2 1) 0
  = Ok ({| top := Some "denim jacket"; topLayer := None; bottom := Some "plaid skirt";
           shoes := None; accessories := ["scarf"; "beanie"];
           aesthetic := [Some "earthy"; Some "layered"; Some "performance"];
           colors := [("top", Some "rust"); ("topLayer", None); ("bottom", Some "burgundy");
                      ("shoes", None); ("accessories", Some "mixed metals")];
           ai_description := "denim jacket, plaid skirt, accessorized with scarf, beanie";
           accessories_description := Some "Accessorized with scarf and beanie";
           accessories_tags := ["scarf"; "beanie"];
           ai_image_url := mock_image_url;
           season := "Fall"; formality := "sports";
           confidence_percent := 85; analysis_timestamp := 5%N |}, 3).
Proof. reflexivity. Qed.

Example mock_inherited_season :
  generateMockAnalysis 5%N
    {| topUrl := None; topLayerUrl := None; bottomUrl := None; shoesUrl := None;
       accessoriesUrl := None;
       param_season := Some "constructor"; param_formality := None |}
    (constant_source 0 0) 0
  = Throw (TypeError "Cannot read properties of undefined (reading 'slice')").
Proof. reflexivity. Qed.

Example replace_unsafe_example : replace_unsafe "my pic(1).png" = "my_pic_1_.png".
Proof. reflexivity. Qed.

(** ** Random picks *)

Lemma floor_scale_lt (r : draw) (n : nat) : (0 < n)%nat -> (floor_scale r n < n)%nat.
Proof.
  intros Hn. unfold floor_scale.
  apply Nat.Div0.div_lt_upper_bound. nia.
Qed.

Lemma bind_rand_ok {A B} (m : rand A) (f : A -> rand B) src k a k' :
  m src k = Ok (a, k') -> (x <- m ;; f x) src k = f a src k'.
Proof. intros H. cbn. now rewrite H. Qed.

Lemma getRandomItem_candidates (l : list string) src k :
  candidates l ->
  exists x, getRandomItem (Own l) src k = Ok (Some x, S k) /\ In x l.
Proof.
  intros [Hne _]. unfold getRandomItem. cbn.
  destruct (nth_error l (floor_scale (src k) (List.length l))) as [x |] eqn:Hnth.
  - exists x. split; [reflexivity |]. eapply nth_error_In; eauto.
  - apply nth_error_None in Hnth.
    assert (0 < List.length l)%nat as Hpos by (destruct l; [congruence | cbn; lia]).
    pose proof (floor_scale_lt (src k) _ Hpos). lia.
Qed.

Lemma describe_candidates url table season l src k :
  js_get table season = Own l -> candidates l ->
  exists d, describe url table season src k = Ok (d, if truthy url then S k else k)
            /\ truthy d = truthy url
            /\ (forall x, d = Some x -> In x l).
Proof.
  intros Hget Hc. unfold describe. destruct (truthy url) eqn:Hu.
  - rewrite Hget. destruct (getRandomItem_candidates l src k Hc) as (x & Hx & Hin).
    exists (Some x). repeat split; auto.
    + destruct Hc as [_ Hall]. rewrite Forall_forall in Hall. now apply Hall.
    + intros y [= <-]. exact Hin.
  - exists None. repeat split; auto. discriminate.
Qed.

Lemma absent_description (d : option string) (l : list string) :
  candidates l -> (forall x, d = Some x -> In x l) -> truthy d = false -> d = None.
Proof.
  intros [_ Hall] Hin Hd. destruct d as [x |]; [| reflexivity].
  rewrite Forall_forall in Hall. rewrite (Hall x (Hin x eq_refl)) in Hd. discriminate.
Qed.

(** Whatever the formality string, the pick of the formality tag returns:
    an unknown formality falls back to the casual list, and a name
    inherited from [Object.prototype] yields [undefined] as the tag. *)
Lemma getRandomItem_formality (f : string) src k :
  exists tag, getRandomItem (js_or (js_get aestheticOptions f)
                                   (js_get aestheticOptions "casual")) src k
              = Ok (tag, S k).
Proof.
  destruct (js_get aestheticOptions f) eqn:Hf; cbn; eauto.
Qed.

Ltac candidates_tac := split; [discriminate | repeat constructor].

Lemma valid_formality_options (f : string) :
  In f valid_formalities ->
  exists l, js_or (js_get aestheticOptions f) (js_get aestheticOptions "casual") = Own l
            /\ candidates l.
Proof.
  intros [<- | [<- | [<- | [<- | []]]]]; eexists; (split; [reflexivity | candidates_tac]).
Qed.

Lemma length_push {A} (l : list A) (x : A) : List.length (push l x) = S (List.length l).
Proof. unfold push. rewrite length_app. cbn. lia. Qed.

Lemma filter_push {A} (f : A -> bool) (l : list A) (x : A) :
  filter f (push l x) = if f x then push (filter f l) x else filter f l.
Proof.
  unfold push. rewrite filter_app. cbn. destruct (f x); [reflexivity | apply app_nil_r].
Qed.

(** ** The generator on a recognized season *)

(** The tables of a recognized season: a preset with at least four colors,
    two aesthetic tags and two accessories, and a candidate list per
    garment slot. *)
Lemma recognized_season_tables (s : string) :
  In s valid_seasons ->
  exists P lt ll lb ls,
    js_get SEASON_PRESETS s = Own P /\ getSeasonPreset s = Own P
    /\ js_get topDescriptions s = Own lt /\ candidates lt
    /\ js_get topLayerDescriptions s = Own ll /\ candidates ll
    /\ js_get bottomDescriptions s = Own lb /\ candidates lb
    /\ js_get shoesDescriptions s = Own ls /\ candidates ls
    /\ (exists c0 c1 c2 c3 more, recommendedColors P = c0 :: c1 :: c2 :: c3 :: more
                                 /\ candidates [c0; c1; c2; c3])
    /\ (exists t0 t1 more, preset_aesthetic P = t0 :: t1 :: more /\ candidates [t0; t1])
    /\ (exists x0 x1 more, recommendedAccessories P = x0 :: x1 :: more).
Proof.
  intros [<- | [<- | [<- | [<- | []]]]];
    (do 5 eexists; repeat (split; [first [reflexivity | candidates_tac] |]));
    [ | | | ]; (split; [| split]);
    repeat eexists; try reflexivity; try discriminate; repeat constructor.
Qed.

(** The record that the generator returns when the season has its tables:
    every field except the random picks is determined by the populated
    slots and the preset. *)
Lemma generateMockAnalysis_tables clock p src k P lt ll lb ls :
  let s := default_to "Fall" (param_season p) in
  getSeasonPreset s = Own P ->
  js_get topDescriptions s = Own lt -> candidates lt ->
  js_get topLayerDescriptions s = Own ll -> candidates ll ->
  js_get bottomDescriptions s = Own lb -> candidates lb ->
  js_get shoesDescriptions s = Own ls -> candidates ls ->
  exists d_top d_layer d_bottom d_shoes tag k4,
    let acc := if truthy (accessoriesUrl p) then firstn 2 (recommendedAccessories P) else [] in
    generateMockAnalysis clock p src k =
      Ok ({| top := d_top; topLayer := d_layer; bottom := d_bottom; shoes := d_shoes;
             accessories := acc;
             aesthetic := push (map Some (firstn 2 (preset_aesthetic P))) tag;
             colors :=
               [ ("top", slot_color (truthy (topUrl p)) P 0);
                 ("topLayer", slot_color (truthy (topLayerUrl p)) P 1);
                 ("bottom", slot_color (truthy (bottomUrl p)) P 2);
                 ("shoes", if truthy (shoesUrl p)
                           then or_neutral (nth_error (recommendedColors P) 3) else None);
                 ("accessories", if (0 <? List.length acc)%nat then Some "mixed metals" else None) ];
             ai_description := buildDescription d_top d_layer d_bottom d_shoes acc;
             accessories_description :=
               if (0 <? List.length acc)%nat
               then Some ("Accessorized with " ++ String.concat " and " acc) else None;
             accessories_tags := acc;
             ai_image_url := mock_image_url;
             season := s;
             formality := default_to "casual" (param_formality p);
             confidence_percent := 85;
             analysis_timestamp := clock |}, S k4)
    /\ (truthy d_top = truthy (topUrl p) /\ forall x, d_top = Some x -> In x lt)
    /\ (truthy d_layer = truthy (topLayerUrl p) /\ forall x, d_layer = Some x -> In x ll)
    /\ (truthy d_bottom = truthy (bottomUrl p) /\ forall x, d_bottom = Some x -> In x lb)
    /\ (truthy d_shoes = truthy (shoesUrl p) /\ forall x, d_shoes = Some x -> In x ls)
    /\ getRandomItem (js_or (js_get aestheticOptions (default_to "casual" (param_formality p)))
                            (js_get aestheticOptions "casual")) src k4
       = Ok (tag, S k4).
Proof.
  intros s HP Ht Hct Hl Hcl Hb Hcb Hs Hcs.
  destruct (describe_candidates (topUrl p) _ _ _ src k Ht Hct) as (d1 & E1 & T1 & I1).
  set (k1 := if truthy (topUrl p) then S k else k) in *.
  destruct (describe_candidates (topLayerUrl p) _ _ _ src k1 Hl Hcl) as (d2 & E2 & T2 & I2).
  set (k2 := if truthy (topLayerUrl p) then S k1 else k1) in *.
  destruct (describe_candidates (bottomUrl p) _ _ _ src k2 Hb Hcb) as (d3 & E3 & T3 & I3).
  set (k3 := if truthy (bottomUrl p) then S k2 else k2) in *.
  destruct (describe_candidates (shoesUrl p) _ _ _ src k3 Hs Hcs) as (d4 & E4 & T4 & I4).
  set (k4 := if truthy (shoesUrl p) then S k3 else k3) in *.
  destruct (getRandomItem_formality (default_to "casual" (param_formality p)) src k4)
    as (tag & Etag).
  exists d1, d2, d3, d4, tag, k4.
  split; [| repeat split; auto].
  unfold generateMockAnalysis. fold s.
  rewrite (bind_rand_ok _ _ _ _ _ _ E1).
  rewrite (bind_rand_ok _ _ _ _ _ _ E2).
  rewrite (bind_rand_ok _ _ _ _ _ _ E3).
  rewrite (bind_rand_ok _ _ _ _ _ _ E4).
  rewrite HP, T1, T2, T3, T4.
  set (acc := if truthy (accessoriesUrl p) then firstn 2 (recommendedAccessories P) else []).
  assert (Eacc : (if truthy (accessoriesUrl p)
                  then lift (a <- field recommendedAccessories (Own P) ;; slice0 2 a)
                  else ret []) src k4 = Ok (acc, k4))
    by (unfold acc; destruct (truthy (accessoriesUrl p)); reflexivity).
  rewrite (bind_rand_ok _ _ _ _ _ _ Eacc).
  assert (Etags : lift (a <- field preset_aesthetic (Own P) ;; slice0 2 a) src k4
                  = Ok (firstn 2 (preset_aesthetic P), k4)) by reflexivity.
  rewrite (bind_rand_ok _ _ _ _ _ _ Etags).
  rewrite (bind_rand_ok _ _ _ _ _ _ Etag).
  unfold slot_color.
  destruct (truthy (topUrl p)), (truthy (topLayerUrl p)), (truthy (bottomUrl p)),
    (truthy (shoesUrl p)); reflexivity.
Qed.

(** On a recognized season the generator returns, whatever the formality
    string, the populated slots and the random draws. *)
Lemma generateMockAnalysis_recognized_total clock p src k :
  In (default_to "Fall" (param_season p)) valid_seasons ->
  exists a k', generateMockAnalysis clock p src k = Ok (a, k').
Proof.
  intros Hs.
  destruct (recognized_season_tables _ Hs)
    as (P & lt & ll & lb & ls & _ & HP & Ht & Hct & Hl & Hcl & Hb & Hcb & Hsh & Hcs & _).
  destruct (generateMockAnalysis_tables clock p src k P lt ll lb ls HP Ht Hct Hl Hcl Hb Hcb Hsh Hcs)
    as (d1 & d2 & d3 & d4 & tag & k4 & E & _).
  eauto.
Qed.

(** ** The generator on an unrecognized season *)

Lemma unrecognized_season_tables (s : string) (A : Type) (t : object A) :
  recognized_season s = false ->
  js_keys t = valid_seasons ->
  js_get t s = if inherited_key s then Inherited else Undefined.
Proof.
  unfold recognized_season, valid_seasons. cbn [existsb]. intros Hs Hkeys.
  repeat (apply orb_false_iff in Hs; destruct Hs as [? Hs]).
  destruct t as [| [k1 v1] [| [k2 v2] [| [k3 v3] [| [k4 v4] [| ? ?]]]]]; try discriminate.
  injection Hkeys as -> -> -> ->.
  unfold js_get. cbn [own_property].
  rewrite (String.eqb_sym "Spring"), (String.eqb_sym "Summer"),
    (String.eqb_sym "Fall"), (String.eqb_sym "Winter").
  repeat match goal with H : (_ =? _) = false |- _ => rewrite H; clear H end.
  reflexivity.
Qed.

Lemma generateMockAnalysis_unrecognized clock p src k :
  recognized_season (default_to "Fall" (param_season p)) = false ->
  is_ok (generateMockAnalysis clock p src k)
  = negb (inherited_key (default_to "Fall" (param_season p))) && negb (garment_populated p).
Proof.
  intros Hs. unfold generateMockAnalysis, describe, getSeasonPreset, garment_populated.
  rewrite !(unrecognized_season_tables _ _ _ Hs) by reflexivity.
  destruct (inherited_key _).
  - destruct (truthy (topUrl p)), (truthy (topLayerUrl p)), (truthy (bottomUrl p)),
      (truthy (shoesUrl p)), (truthy (accessoriesUrl p)); reflexivity.
  - destruct (truthy (topUrl p)); [reflexivity |].
    destruct (truthy (topLayerUrl p)); [reflexivity |].
    destruct (truthy (bottomUrl p)); [reflexivity |].
    destruct (truthy (shoesUrl p)); [reflexivity |].
    cbn [orb negb andb].
    destruct (getRandomItem_formality (default_to "casual" (param_formality p)) src k)
      as (tag & Etag).
    destruct (truthy (accessoriesUrl p)); cbn; cbn in Etag; rewrite Etag; reflexivity.
Qed.

(** Exactly when the generator returns: on a recognized season always; on
    any other season only if the name is not inherited from
    [Object.prototype] and no garment slot (top, topLayer, bottom, shoes)
    has an image. *)
Lemma generateMockAnalysis_returns_iff clock p src k :
  let s := default_to "Fall" (param_season p) in
  is_ok (generateMockAnalysis clock p src k)
  = recognized_season s || negb (inherited_key s) && negb (garment_populated p).
Proof.
  intros s. destruct (recognized_season s) eqn:Hs.
  - assert (In s valid_seasons) as Hin.
    { unfold recognized_season in Hs. apply existsb_exists in Hs.
      destruct Hs as (x & Hx & Heq). apply String.eqb_eq in Heq. now subst. }
    destruct (generateMockAnalysis_recognized_total clock p src k Hin) as (a & k' & ->).
    reflexivity.
  - now apply generateMockAnalysis_unrecognized.
Qed.

(** ** Analyze: the two tiers *)

Lemma edge_served_data edge : edge_served edge = true -> exists d, data edge = Some d.
Proof.
  unfold edge_served, has_description.
  destruct (error edge); [discriminate |]. destruct (data edge); [eauto | discriminate].
Qed.

Lemma analyzeFit_cases edge clock payload src k :
  analyzeFit edge clock payload src k =
  match edge_served edge, data edge with
  | true, Some d => Ok (FromEdgeFunction d, k)
  | _, _ => mock_outcome (generateMockAnalysis clock (mock_params_of payload) src k)
  end.
Proof.
  unfold analyzeFit. fold (mock_params_of payload).
  generalize (generateMockAnalysis clock (mock_params_of payload)). intros mock.
  unfold try_catch_rand, edge_served, mock_outcome, throw_rand.
  destruct (error edge) as [e |]; cbn.
  - destruct (mock src k) as [[a k'] | e']; destruct (data edge); reflexivity.
  - destruct (has_description (data edge)) eqn:Hd; cbn.
    + destruct (data edge); [reflexivity | discriminate].
    + destruct (mock src k) as [[a k'] | e']; destruct (data edge); reflexivity.
Qed.

(** Claim C1, at the input where the code departs from it.  For the season
    "Autumn" [getSeasonPreset] falls back to the Spring preset, but with an
    image in the top slot [generateMockAnalysis] reads
    [topDescriptions["Autumn"].length] and throws a TypeError, for every
    clock and every random source; [analyzeFit] rethrows it when the edge
    function is unreachable. *)
Theorem unrecognized_season_throws :
  getSeasonPreset "Autumn" = Own Spring_preset
  /\ (forall clock src k,
        generateMockAnalysis clock (mock_params_of autumn_payload) src k
        = Throw (TypeError "Cannot read properties of undefined (reading 'length')"))
  /\ (forall clock src k,
        analyzeFit unreachable_function clock autumn_payload src k
        = Throw (TypeError "Cannot read properties of undefined (reading 'length')")).
Proof.
  split; [reflexivity |]. split; reflexivity.
Qed.

(** Claim C2 as stated fails: for season "Fall", formality "casual" and no
    image at all, the [colors] object still has its five keys, each mapped
    to [null]; it is not empty and it has the key "top" although [topUrl] is
    absent. *)
Lemma colors_keys_without_images :
  exists a k',
    generateMockAnalysis 0%N no_image_params (constant_source 0 0) 0 = Ok (a, k')
    /\ colors a = [("top", None); ("topLayer", None); ("bottom", None);
                   ("shoes", None); ("accessories", None)]
    /\ colors a <> []
    /\ In "top" (js_keys (colors a))
    /\ topUrl no_image_params = None.
Proof.
  eexists _, _. split; [vm_compute; reflexivity |]. cbn.
  repeat split; auto. discriminate.
Qed.

(** Claim C2, amended.  For every valid season and formality and every
    combination of populated image slots, the generator returns a record
    whose [aesthetic] list has at least one entry, all of them non-empty
    strings; whose [colors] object always has the five keys top, topLayer,
    bottom, shoes and accessories; and in which the value of a key is a
    color (not [null]) exactly when the image reference of that slot is
    populated.  With no image, all five values are [null]. *)
Theorem mock_colors_follow_images clock p src k :
  In (default_to "Fall" (param_season p)) valid_seasons ->
  In (default_to "casual" (param_formality p)) valid_formalities ->
  exists a k',
    generateMockAnalysis clock p src k = Ok (a, k')
    /\ (1 <= List.length (aesthetic a))%nat
    /\ Forall (fun tag => truthy tag = true) (aesthetic a)
    /\ js_keys (colors a) = ["top"; "topLayer"; "bottom"; "shoes"; "accessories"]
    /\ (forall slot url, In (slot, url) (image_slots p) ->
          truthy (color_entry a slot) = truthy url
          /\ (truthy url = false -> color_entry a slot = None)).
Proof.
  intros Hs Hf.
  destruct (recognized_season_tables _ Hs)
    as (P & lt & ll & lb & ls & _ & HP & Ht & Hct & Hl & Hcl & Hb & Hcb & Hsh & Hcs
        & (c0 & c1 & c2 & c3 & more & HC & _ & HCt)
        & (t0 & t1 & ts & HT & _ & HTt) & (x0 & x1 & xs & HX)).
  destruct (generateMockAnalysis_tables clock p src k P lt ll lb ls HP Ht Hct Hl Hcl Hb Hcb Hsh Hcs)
    as (d1 & d2 & d3 & d4 & tag & k4 & E & _ & _ & _ & _ & Etag).
  destruct (valid_formality_options _ Hf) as (options & Hopt & Hco).
  rewrite Hopt in Etag.
  destruct (getRandomItem_candidates options src k4 Hco) as (x & Ex & Hx).
  rewrite Ex in Etag. injection Etag as <-.
  cbv zeta in E. eexists _, _. split; [exact E |]. cbn [aesthetic colors].
  split; [rewrite length_push; lia |].
  split.
  { rewrite HT. cbn. inversion_clear HTt as [| ? ? Tt0 HTt1].
    inversion_clear HTt1 as [| ? ? Tt1 _].
    destruct Hco as [_ Hall]. rewrite Forall_forall in Hall.
    repeat constructor; auto. }
  split; [reflexivity |].
  inversion_clear HCt as [| ? ? T0 HCt1]. inversion_clear HCt1 as [| ? ? T1 HCt2].
  inversion_clear HCt2 as [| ? ? T2 HCt3]. inversion_clear HCt3 as [| ? ? T3 _].
  intros slot url Hin. unfold image_slots in Hin. cbn [In] in Hin.
  unfold color_entry, slot_color, or_neutral. cbn [colors]. rewrite HC, HX.
  destruct Hin as [[= <- <-] | [[= <- <-] | [[= <- <-] | [[= <- <-] | [[= <- <-] | []]]]]];
    cbn [own_property String.eqb Ascii.eqb Bool.eqb nth_error];
    match goal with |- _ = truthy ?u /\ _ => destruct (truthy u) end;
    cbn [firstn List.length Nat.ltb Nat.leb nth_error]; rewrite ?T3;
    (split; [auto | first [discriminate | reflexivity]]).
Qed.

(** The amended claim C2 at season "Spring", formality "sports", with an
    image in every slot. *)
Lemma mock_colors_follow_images_witness :
  exists a k',
    generateMockAnalysis 0%N spring_every_slot (fun i => {| num := i; slack := 2 |}) 0
    = Ok (a, k')
    /\ (1 <= List.length (aesthetic a))%nat
    /\ Forall (fun tag => truthy tag = true) (aesthetic a)
    /\ js_keys (colors a) = ["top"; "topLayer"; "bottom"; "shoes"; "accessories"]
    /\ (forall slot url, In (slot, url) (image_slots spring_every_slot) ->
          truthy (color_entry a slot) = truthy url
          /\ (truthy url = false -> color_entry a slot = None)).
Proof.
  apply (mock_colors_follow_images 0%N spring_every_slot); cbn; tauto.
Defined.

(** Claim C6.  For season "Fall", formality "casual" and an image in the
    bottom slot only, the generator returns a record in which the top,
    topLayer and shoes descriptions are absent; [bottom] is one of the four
    Fall bottom candidates; [colors.bottom] is the third color of the Fall
    preset, "burgundy"; the accessories tag list is empty; and [aesthetic]
    has exactly three entries: the first two Fall tags and one casual
    tag. *)
Theorem fall_casual_bottom_only clock p src k :
  param_season p = Some "Fall" ->
  param_formality p = Some "casual" ->
  truthy (topUrl p) = false ->
  truthy (topLayerUrl p) = false ->
  truthy (bottomUrl p) = true ->
  truthy (shoesUrl p) = false ->
  truthy (accessoriesUrl p) = false ->
  exists a k',
    generateMockAnalysis clock p src k = Ok (a, k')
    /\ top a = None /\ topLayer a = None /\ shoes a = None
    /\ (exists b, bottom a = Some b
                  /\ In b ["dark jeans"; "corduroy pants"; "plaid skirt"; "cargo pants"])
    /\ color_entry a "bottom" = nth_error (recommendedColors Fall_preset) 2
    /\ color_entry a "bottom" = Some "burgundy"
    /\ accessories_tags a = []
    /\ List.length (aesthetic a) = 3%nat
    /\ (exists t, aesthetic a = [Some "earthy"; Some "layered"; Some t]
                  /\ In t ["streetwear"; "Y2K"; "casual"; "everyday"; "relaxed"]).
Proof.
  intros Hseason Hformality Htop Hlayer Hbottom Hshoes Hacc.
  assert (Hc : forall l : list string,
             l <> [] -> Forall (fun s => truthy (Some s) = true) l -> candidates l)
    by (intros; split; assumption).
  destruct (generateMockAnalysis_tables clock p src k Fall_preset
              ["rust sweater"; "olive button-up"; "denim jacket"; "cozy hoodie"]
              ["leather jacket"; "oversized blazer"; "wool coat"]
              ["dark jeans"; "corduroy pants"; "plaid skirt"; "cargo pants"]
              ["ankle boots"; "combat boots"; "sneakers"; "oxfords"])
    as (d1 & d2 & d3 & d4 & tag & k4 & E & (T1 & I1) & (T2 & I2) & (T3 & I3) & (T4 & I4) & Etag);
    try (rewrite Hseason; reflexivity);
    try (apply Hc; [discriminate | repeat constructor]).
  cbv zeta in E. rewrite Hseason, Hformality in *.
  rewrite Htop in T1. rewrite Hlayer in T2. rewrite Hbottom in T3. rewrite Hshoes in T4.
  assert (d1 = None)
    by (eapply absent_description; eauto; apply Hc; [discriminate | repeat constructor]).
  assert (d2 = None)
    by (eapply absent_description; eauto; apply Hc; [discriminate | repeat constructor]).
  assert (d4 = None)
    by (eapply absent_description; eauto; apply Hc; [discriminate | repeat constructor]).
  subst d1 d2 d4.
  destruct d3 as [b |]; [| discriminate].
  destruct (getRandomItem_candidates
              ["streetwear"; "Y2K"; "casual"; "everyday"; "relaxed"] src k4)
    as (t & Et & Hint); [apply Hc; [discriminate | repeat constructor] |].
  change (js_or (js_get aestheticOptions (default_to "casual" (Some "casual")))
                (js_get aestheticOptions "casual"))
    with (Own ["streetwear"; "Y2K"; "casual"; "everyday"; "relaxed"]) in Etag.
  rewrite Et in Etag. injection Etag as <-.
  eexists _, _. split; [exact E |].
  unfold color_entry. cbn [top topLayer shoes bottom colors accessories_tags aesthetic].
  rewrite Hbottom, Hacc.
  repeat split; try reflexivity.
  - exists b. split; [reflexivity | now apply I3].
  - exists t. split; [reflexivity | exact Hint].
Qed.

(** Claim C6 on a concrete payload and a concrete random source. *)
Lemma fall_casual_bottom_only_witness :
  exists a k',
    generateMockAnalysis 0%N fall_bottom_params (constant_source 1 1) 0 = Ok (a, k')
    /\ top a = None /\ topLayer a = None /\ shoes a = None
    /\ (exists b, bottom a = Some b
                  /\ In b ["dark jeans"; "corduroy pants"; "plaid skirt"; "cargo pants"])
    /\ color_entry a "bottom" = nth_error (recommendedColors Fall_preset) 2
    /\ color_entry a "bottom" = Some "burgundy"
    /\ accessories_tags a = []
    /\ List.length (aesthetic a) = 3%nat
    /\ (exists t, aesthetic a = [Some "earthy"; Some "layered"; Some t]
                  /\ In t ["streetwear"; "Y2K"; "casual"; "everyday"; "relaxed"]).
Proof.
  apply (fall_casual_bottom_only 0%N fall_bottom_params); reflexivity.
Defined.

Lemma json_truthy_iff (v : json) :
  json_truthy v = true
  <-> v <> JNull /\ v <> JBool false /\ (forall e, v <> JNumber 0 e) /\ v <> JString "".
Proof.
  destruct v as [| b | m e | s | items | members]; cbn.
  - split; [discriminate | intros [H _]; now contradiction H].
  - destruct b; split; try discriminate; try (intros _; repeat split; discriminate).
    intros (_ & H & _). now contradiction H.
  - destruct (Z.eqb_spec m 0) as [-> | Hm]; cbn.
    + split; [discriminate | intros (_ & _ & H & _); now contradiction (H e)].
    + split; [| reflexivity]. intros _. repeat split; try discriminate.
      intros e' [= E _]. contradiction.
  - destruct (String.eqb_spec s "") as [-> | Hs]; cbn.
    + split; [discriminate | intros (_ & _ & _ & H); now contradiction H].
    + split; [| reflexivity]. intros _. repeat split; try discriminate.
      intros [= E]. contradiction.
  - split; [| reflexivity]. intros _. repeat split; discriminate.
  - split; [| reflexivity]. intros _. repeat split; discriminate.
Qed.

Lemma defined_and_truthy_iff (o : option json) :
  defined_and_truthy o = true <-> exists v, o = Some v /\ json_truthy v = true.
Proof.
  destruct o as [v |]; cbn.
  - split; [eauto | now intros (v' & [= <-] & H)].
  - split; [discriminate | now intros (v' & H & _)].
Qed.

Lemma has_description_iff (d : json) :
  has_description (Some d) = true
  <-> exists v, (json_get d "top" = Some v \/ json_get d "ai_description" = Some v)
                /\ json_truthy v = true.
Proof.
  unfold has_description.
  rewrite andb_true_iff, orb_true_iff, !defined_and_truthy_iff. split.
  - intros [_ [(v & H & Ht) | (v & H & Ht)]]; exists v; auto.
  - intros (v & H & Ht). split; [| destruct H; eauto].
    destruct d; cbn in H; try reflexivity; destruct H; discriminate.
Qed.

(** Claim C7.  [analyzeFit] returns the payload of the edge function exactly
    when the call reports no error and the payload has a field [top] or a
    field [ai_description] whose value is not [null], [false], [0] or the
    empty string; what it then returns is that payload, and no random number
    is drawn.  When the call reports an error, and when the payload is
    missing or structurally empty (it has neither field, or only with such
    an empty value), the outcome is the outcome of [generateMockAnalysis] on
    the same slots, season and formality.  There is no third case. *)
Theorem analyzeFit_two_tiers edge clock payload src k :
  (forall d k',
     analyzeFit edge clock payload src k = Ok (FromEdgeFunction d, k')
     <-> error edge = None /\ data edge = Some d /\ k' = k
         /\ exists v,
              (json_get d "top" = Some v \/ json_get d "ai_description" = Some v)
              /\ v <> JNull /\ v <> JBool false /\ (forall e, v <> JNumber 0 e)
              /\ v <> JString "")
  /\ (forall e, error edge = Some e ->
       analyzeFit edge clock payload src k
       = mock_outcome (generateMockAnalysis clock (mock_params_of payload) src k))
  /\ ((forall d v, data edge = Some d ->
                   json_get d "top" = Some v \/ json_get d "ai_description" = Some v ->
                   v = JNull \/ v = JBool false \/ (exists e, v = JNumber 0 e)
                   \/ v = JString "") ->
      analyzeFit edge clock payload src k
      = mock_outcome (generateMockAnalysis clock (mock_params_of payload) src k))
  /\ ((exists d, analyzeFit edge clock payload src k = Ok (FromEdgeFunction d, k))
      \/ analyzeFit edge clock payload src k
         = mock_outcome (generateMockAnalysis clock (mock_params_of payload) src k)).
Proof.
  rewrite analyzeFit_cases.
  assert (Hmock : forall d k',
             mock_outcome (generateMockAnalysis clock (mock_params_of payload) src k)
             <> Ok (FromEdgeFunction d, k')).
  { intros d k'. unfold mock_outcome.
    destruct (generateMockAnalysis clock (mock_params_of payload) src k) as [[a k''] | e];
      discriminate. }
  unfold edge_served.
  destruct (error edge) as [err |].
  { split; [| split; [| split]].
    - intros d k'. split; [| intros (H & _); discriminate].
      intros H. exfalso. destruct (data edge); eapply Hmock; eauto.
    - intros _ _. destruct (data edge); reflexivity.
    - intros _. destruct (data edge); reflexivity.
    - right. destruct (data edge); reflexivity. }
  destruct (data edge) as [d0 |];
    [| split; [| split; [| split]]; auto; try discriminate;
       intros d k'; split; [intros H; exfalso; eapply Hmock; eauto
                           | intros (_ & H & _); discriminate]].
  destruct (has_description (Some d0)) eqn:Hd.
  - apply has_description_iff in Hd as (v & Hv & Ht).
    apply json_truthy_iff in Ht as (H1 & H2 & H3 & H4).
    split; [| split; [| split]].
    + intros d k'. split.
      * intros [= <- <-]. repeat split; eauto 10.
      * intros (_ & [= <-] & -> & _). reflexivity.
    + discriminate.
    + intros Hempty. exfalso.
      destruct (Hempty d0 v eq_refl Hv) as [E | [E | [[e E] | E]]]; subst v;
        [now apply H1 | now apply H2 | now apply (H3 e) | now apply H4].
    + left. eauto.
  - split; [| split; [| split]]; auto; try discriminate.
    intros d k'. split; [intros H; exfalso; eapply Hmock; eauto |].
    intros (_ & [= <-] & _ & v & Hv & H1 & H2 & H3 & H4). exfalso.
    assert (has_description (Some d0) = true) as Hyes
      by (apply has_description_iff; exists v; split; [exact Hv |];
          apply json_truthy_iff; auto).
    congruence.
Qed.

Example empty_payload_falls_through :
  analyzeFit {| data := Some (JObject [("top", JString ""); ("bottom", JString "jeans")]);
                error := None |}
             7%N {| AnalyzePayload.session_id := "s1";
                    AnalyzePayload.top_url := None;
                    AnalyzePayload.top_layer_url := None;
                    AnalyzePayload.bottom_url := None;
                    AnalyzePayload.shoes_url := None;
                    AnalyzePayload.accessories_url := None;
                    AnalyzePayload.season := Some "Winter";
                    AnalyzePayload.formality := None |}
             (constant_source 0 0) 0
  = Ok (FromMock {| top := None; topLayer := None; bottom := None; shoes := None;
                    accessories := [];
                    aesthetic := [Some "cozy"; Some "layered"; Some "streetwear"];
                    colors := [("top", None); ("topLayer", None); ("bottom", None);
                               ("shoes", None); ("accessories", None)];
                    ai_description := "";
                    accessories_description := None;
                    accessories_tags := [];
                    ai_image_url := mock_image_url;
                    season := "Winter"; formality := "casual";
                    confidence_percent := 85; analysis_timestamp := 7%N |}, 1).
Proof. reflexivity. Qed.

Example ai_description_alone_is_served :
  analyzeFit {| data := Some (JObject [("ai_description", JString "rust sweater, dark jeans")]);
                error := None |}
             7%N autumn_payload (constant_source 0 0) 0
  = Ok (FromEdgeFunction (JObject [("ai_description", JString "rust sweater, dark jeans")]), 0).
Proof. reflexivity. Qed.

(* ================================================================= *)
(** ** The equations of the tiered operations *)

Lemma saveFit_cases env payload w :
  saveFit env payload w =
  if functions_up env && truthy (Some (Payload.session_id payload)) then
    (Ok (remote_row env payload),
     {| db := push (db w) (remote_row env payload); cache := cache w;
        gateway_log := push (gateway_log w) (FunctionsInvoke "save-fit") |})
  else if store_up env then
    (Ok (direct_row env payload),
     {| db := push (db w) (direct_row env payload); cache := cache w;
        gateway_log := push (push (gateway_log w) (FunctionsInvoke "save-fit")) TableInsert |})
  else
    match local_error env with
    | Some e =>
        (Throw e,
         {| db := db w; cache := cache w;
            gateway_log := push (push (gateway_log w) (FunctionsInvoke "save-fit")) TableInsert |})
    | None =>
        (Ok (local_outfit env payload),
         {| db := db w; cache := Some (push (cached w) (local_outfit env payload));
            gateway_log := push (push (gateway_log w) (FunctionsInvoke "save-fit")) TableInsert |})
    end.
Proof.
  unfold saveFit, invoke_save_fit, from_outfits_insert, save_fit_handler, try_catch,
    localStorage_get, localStorage_set, local_error.
  cbn -[truthy outfitData_of].
  change (Outfit.session_id (outfitData_of env payload)) with (Payload.session_id payload).
  destruct (functions_up env), (truthy (Some (Payload.session_id payload))), (store_up env);
    try reflexivity;
    destruct (local_read_error env); try reflexivity;
    destruct (local_write_error env); reflexivity.
Qed.

Lemma getSavedFits_cases env sessionId w :
  getSavedFits env sessionId w =
  let w' := {| db := db w; cache := cache w;
               gateway_log := push (push (gateway_log w) (FunctionsInvoke "getSavedFits"))
                                   (TableSelect sessionId) |} in
  if store_up env
  then (Ok (select_saved sessionId (db w)), w')
  else (Ok (filter (of_session sessionId) (cache_seen env w)), w').
Proof.
  unfold getSavedFits, invoke_getSavedFits, from_outfits_select, try_catch, localStorage_get,
    cache_seen.
  destruct (functions_up env), (store_up env); try reflexivity;
    cbn; destruct (local_read_error env); reflexivity.
Qed.

Lemma deleteOutfit_cases env outfitId w :
  deleteOutfit env outfitId w =
  if String.prefix "local_" outfitId then
    match local_error env with
    | Some _ => (Ok false, w)
    | None =>
        (Ok true, {| db := db w;
                     cache := Some (filter (fun o => negb (Outfit.id o =? outfitId)) (cached w));
                     gateway_log := gateway_log w |})
    end
  else
    (Ok (store_up env),
     {| db := if store_up env then delete_rows outfitId (db w) else db w;
        cache := cache w;
        gateway_log := push (gateway_log w) (TableDelete outfitId) |}).
Proof.
  unfold deleteOutfit, from_outfits_delete, try_catch, localStorage_get, localStorage_set,
    local_error.
  destruct (String.prefix "local_" outfitId); cbn.
  - destruct (local_read_error env); [reflexivity |].
    destruct (local_write_error env); reflexivity.
  - destruct (store_up env); reflexivity.
Qed.

(* ================================================================= *)
(** ** Ordering and filtering of the backend query *)

Lemma insert_desc_perm o l : Permutation (insert_desc o l) (o :: l).
Proof.
  induction l as [| x l IH]; cbn; [reflexivity |].
  destruct (created_at_of x <=? created_at_of o)%N; [reflexivity |].
  rewrite IH. apply perm_swap.
Qed.

Lemma order_desc_perm l : Permutation (order_desc l) l.
Proof.
  induction l as [| x l IH]; cbn; [reflexivity |].
  rewrite insert_desc_perm. now constructor.
Qed.

Lemma insert_desc_sorted o l : newest_first l -> newest_first (insert_desc o l).
Proof.
  unfold newest_first. induction 1 as [| x l Hs IH Hx]; cbn.
  - repeat constructor.
  - destruct (created_at_of x <=? created_at_of o)%N eqn:Hle.
    + apply N.leb_le in Hle. constructor; [constructor; assumption |].
      constructor; [assumption |].
      eapply Forall_impl; [| exact Hx]. cbn. intros; lia.
    + apply N.leb_gt in Hle. constructor; [assumption |].
      eapply Permutation_Forall; [symmetry; apply insert_desc_perm |].
      constructor; [lia | assumption].
Qed.

Lemma order_desc_sorted l : newest_first (order_desc l).
Proof.
  induction l as [| x l IH]; cbn; [constructor | now apply insert_desc_sorted].
Qed.

Lemma select_saved_perm sessionId rows :
  Permutation (select_saved sessionId rows)
    (filter (fun o => of_session sessionId o && Bool.eqb (Outfit.saved (Outfit.fields o)) true) rows).
Proof. apply order_desc_perm. Qed.

Lemma select_saved_of_session sessionId rows :
  Forall (fun o => Outfit.session_id (Outfit.fields o) = sessionId) (select_saved sessionId rows).
Proof.
  eapply Permutation_Forall; [symmetry; apply select_saved_perm |].
  apply Forall_forall. intros o Ho. apply filter_In in Ho as [_ Ho].
  apply andb_prop in Ho as [Ho _]. now apply String.eqb_eq in Ho.
Qed.

(** What holds of [getSavedFits] on every tier: it returns a list, and the
    list holds outfits of the session only; the backend query also orders
    it newest first. *)
Lemma getSavedFits_total_and_filtered env sessionId w :
  exists l w',
    getSavedFits env sessionId w = (Ok l, w')
    /\ Forall (fun o => Outfit.session_id (Outfit.fields o) = sessionId) l
    /\ (store_up env = true -> newest_first l).
Proof.
  rewrite getSavedFits_cases. cbv zeta. destruct (store_up env).
  - eexists _, _. split; [reflexivity |]. split; [apply select_saved_of_session |].
    intros _. apply order_desc_sorted.
  - eexists _, _. split; [reflexivity |]. split; [| discriminate].
    apply Forall_forall. intros o Ho. apply filter_In in Ho as [_ Ho].
    now apply String.eqb_eq in Ho.
Qed.

(** As the two sides are written, the remote tier of [getSavedFits] never
    serves: the edge function looks for [session_id] in the query string of
    the URL, and the client sends it in the body of the request; the
    function answers 400 and the client falls through to the direct
    query. *)
Lemma getSavedFits_remote_tier_never_serves env sessionId w :
  exists e w', (r <- invoke_getSavedFits env sessionId ;; data_or_throw r "length") w
               = (Throw e, w').
Proof.
  unfold invoke_getSavedFits. cbn.
  destruct (functions_up env); cbn; unfold throw; eauto.
Qed.

(** Claim C4, at the input where the code departs from it.  After two
    saves of session "s1" that fell back to the local cache, at times 1000
    and 2000, a fetch served by the local cache returns the older outfit
    first: the local tier filters by session but does not order, while both
    Gateway queries order by [created_at] descending. *)
Theorem local_tier_returns_oldest_first :
  exists older newer w',
    getSavedFits (offline 3000%N) "s1" two_local_saves = (Ok [older; newer], w')
    /\ created_at_of older = 1000%N
    /\ created_at_of newer = 2000%N
    /\ ~ newest_first [older; newer].
Proof.
  eexists _, _, _. split; [vm_compute; reflexivity |].
  split; [reflexivity |]. split; [reflexivity |].
  intros H. inversion H as [| ? ? _ Hall]. inversion Hall as [| ? ? Hle _].
  vm_compute in Hle. now apply Hle.
Qed.

(* ================================================================= *)
(** ** Save, then fetch *)

Lemma remote_save_tier_raises_iff env payload w :
  (exists e w', (r <- invoke_save_fit env (outfitData_of env payload) ;; data_or_throw r "id") w
                = (Throw e, w'))
  <-> functions_up env && truthy (Some (Payload.session_id payload)) = false.
Proof.
  unfold invoke_save_fit, save_fit_handler. cbn -[truthy outfitData_of].
  change (Outfit.session_id (outfitData_of env payload)) with (Payload.session_id payload).
  destruct (functions_up env), (truthy (Some (Payload.session_id payload)));
    cbn; unfold throw; split; intros H; try reflexivity; try discriminate; eauto;
    destruct H as (e & w' & H); discriminate.
Qed.

Lemma direct_insert_tier_raises_iff env payload w :
  (exists e w', (r <- from_outfits_insert env (outfitData_of env payload) ;; data_or_throw r "id") w
                = (Throw e, w'))
  <-> store_up env = false.
Proof.
  unfold from_outfits_insert. cbn -[outfitData_of].
  destruct (store_up env); cbn; unfold throw; split; intros H;
    try reflexivity; try discriminate; eauto.
  destruct H as (e & w' & H); discriminate.
Qed.

Lemma prefix_local (suffix : string) : String.prefix "local_" ("local_" ++ suffix) = true.
Proof. destruct suffix; reflexivity. Qed.

(** Claim C5, amended.  If the remote-function save raises (the function
    is unreachable, or it rejects an empty [session_id]) and the direct
    insert raises, [saveFit] goes to the local cache.  When the entry can be
    read and written, [saveFit] resolves; the outfit it returns has an id
    that starts with "local_", it is appended to the local cache, and a
    later [getSavedFits] for the same session that is served by the local
    cache contains it.  When reading or writing the entry throws, [saveFit]
    rejects with that exception and the cache and the table are as they
    were. *)
Theorem saveFit_falls_back_to_local_cache env payload w :
  functions_up env && truthy (Some (Payload.session_id payload)) = false ->
  store_up env = false ->
  match local_error env with
  | None =>
      exists saved w',
        saveFit env payload w = (Ok saved, w')
        /\ String.prefix "local_" (Outfit.id saved) = true
        /\ cache w' = Some (push (cached w) saved)
        /\ forall env', store_up env' = false -> local_read_error env' = None ->
              exists l w'', getSavedFits env' (Payload.session_id payload) w' = (Ok l, w'')
                            /\ In saved l
  | Some e =>
      exists w', saveFit env payload w = (Throw e, w')
                 /\ cache w' = cache w
                 /\ db w' = db w
  end.
Proof.
  intros Hfn Hdb. rewrite saveFit_cases, Hfn, Hdb.
  destruct (local_error env) as [e |]; [eexists; repeat split |].
  eexists _, _. split; [reflexivity |]. split; [apply prefix_local |].
  split; [reflexivity |].
  intros env' Hdb' Hread. rewrite getSavedFits_cases, Hdb'. cbv zeta.
  eexists _, _. split; [reflexivity |].
  unfold cache_seen. rewrite Hread.
  unfold cached at 1. cbn [cache]. rewrite filter_push.
  unfold of_session at 1. cbn. rewrite String.eqb_refl.
  unfold push. apply in_or_app. right. now left.
Qed.

(** The amended claim C5 for a save at time 1000 with the Gateway down and a
    working [localStorage]. *)
Lemma saveFit_falls_back_to_local_cache_witness :
  exists saved w',
    saveFit (offline 1000%N) (fall_outfit "s1") empty_world = (Ok saved, w')
    /\ String.prefix "local_" (Outfit.id saved) = true
    /\ cache w' = Some (push (cached empty_world) saved)
    /\ forall env', store_up env' = false -> local_read_error env' = None ->
          exists l w'', getSavedFits env' (Payload.session_id (fall_outfit "s1")) w' = (Ok l, w'')
                        /\ In saved l.
Proof.
  apply (saveFit_falls_back_to_local_cache (offline 1000%N) (fall_outfit "s1") empty_world);
    reflexivity.
Defined.

(** Claim C5 as stated fails: with the Gateway down and [localStorage]
    full, the remote-function save raises, the direct insert raises, and
    [saveFit] rejects with the exception of [setItem]; the outer [catch] of
    [saveFit] rethrows it.  Nothing is cached. *)
Lemma saveFit_rejects_when_storage_full :
  (exists e w',
     (r <- invoke_save_fit (offline_storage_full 1000%N)
             (outfitData_of (offline_storage_full 1000%N) (fall_outfit "s1")) ;;
      data_or_throw r "id") empty_world = (Throw e, w'))
  /\ (exists e w',
        (r <- from_outfits_insert (offline_storage_full 1000%N)
                (outfitData_of (offline_storage_full 1000%N) (fall_outfit "s1")) ;;
         data_or_throw r "id") empty_world = (Throw e, w'))
  /\ exists msg w',
       saveFit (offline_storage_full 1000%N) (fall_outfit "s1") empty_world
       = (Throw (DOMException "QuotaExceededError" msg), w')
       /\ cache w' = None.
Proof.
  split; [eexists _, _; vm_compute; reflexivity |].
  split; [eexists _, _; vm_compute; reflexivity |].
  eexists _, _. split; [vm_compute; reflexivity | reflexivity].
Qed.

(** Claim C3 as stated fails: an outfit saved while the Gateway was
    down lands in the local cache only; a fetch for the same session that
    the backend store serves afterwards returns the empty list. *)
Lemma local_save_missing_from_gateway_fetch :
  exists saved w1 w2,
    saveFit (offline 1000%N) (fall_outfit "s1") empty_world = (Ok saved, w1)
    /\ Outfit.id saved = "local_1001"
    /\ getSavedFits (online 2000%N "7d9f0c1e-0000-4000-8000-000000000001") "s1" w1 = (Ok [], w2).
Proof.
  eexists _, _, _. split; [vm_compute; reflexivity |]. split; reflexivity.
Qed.

Lemma saved_row_matches env payload w saved w1 :
  saveFit env payload w = (Ok saved, w1) ->
  of_session (Payload.session_id payload) saved
  && Bool.eqb (Outfit.saved (Outfit.fields saved)) true = true.
Proof.
  rewrite saveFit_cases. unfold of_session.
  destruct (functions_up env && truthy (Some (Payload.session_id payload)));
    [| destruct (store_up env); [| destruct (local_error env); [discriminate |]]];
    intros [= <- _]; cbn; now rewrite String.eqb_refl.
Qed.

(** Claim C3, amended.  When the fetch is served by the store that the
    save landed in (the backend table for a save through either Gateway
    tier; the local cache for a local save, the entry being read and written
    without an exception by the save and read without one by the fetch), the
    fetch for the session of the saved outfit returns what it returned
    before the save plus one occurrence of the saved outfit; so the outfit
    occurs exactly once whenever it was not already there. *)
Theorem save_then_fetchAll_same_store env env' payload w :
  reaches_backend env payload = store_up env' ->
  (store_up env' = false -> local_error env = None /\ local_read_error env' = None) ->
  exists saved w1 before w2 after w3,
    saveFit env payload w = (Ok saved, w1)
    /\ getSavedFits env' (Payload.session_id payload) w = (Ok before, w2)
    /\ getSavedFits env' (Payload.session_id payload) w1 = (Ok after, w3)
    /\ Permutation after (saved :: before)
    /\ (~ In saved before ->
        exists l1 l2, after = app l1 (saved :: l2) /\ ~ In saved l1 /\ ~ In saved l2).
Proof.
  intros Hstore Hlocal.
  assert (exists saved w1 before w2 after w3,
    saveFit env payload w = (Ok saved, w1)
    /\ getSavedFits env' (Payload.session_id payload) w = (Ok before, w2)
    /\ getSavedFits env' (Payload.session_id payload) w1 = (Ok after, w3)
    /\ Permutation after (saved :: before)) as (saved & w1 & before & w2 & after & w3 & Hs & Hb & Ha & Hp).
  { destruct (saveFit env payload w) as [r w1] eqn:Hsave.
    pose proof Hsave as Hcases. rewrite saveFit_cases in Hcases.
    unfold reaches_backend in Hstore.
    destruct (functions_up env && truthy (Some (Payload.session_id payload))) eqn:Hfn;
      [| destruct (store_up env) eqn:Hdb]; cbn [orb] in Hstore;
      try (destruct (Hlocal (eq_sym Hstore)) as [Hsave_ok Hread];
           rewrite Hsave_ok in Hcases);
      injection Hcases as <- <-;
      pose proof (saved_row_matches _ _ _ _ _ Hsave) as Hm;
      (eexists _, _, _, _, _, _; split; [reflexivity |]);
      rewrite !getSavedFits_cases; cbv zeta; rewrite <- Hstore;
      (split; [reflexivity |]; split; [reflexivity |]).
    - cbn [db]. rewrite !select_saved_perm, filter_push, Hm.
      unfold push. rewrite Permutation_app_comm. reflexivity.
    - cbn [db]. rewrite !select_saved_perm, filter_push, Hm.
      unfold push. rewrite Permutation_app_comm. reflexivity.
    - apply andb_prop in Hm as [Hm _].
      unfold cache_seen. rewrite Hread.
      unfold cached at 1. cbn [cache]. rewrite filter_push, Hm.
      unfold push. rewrite Permutation_app_comm. reflexivity. }
  exists saved, w1, before, w2, after, w3. repeat (split; [assumption |]).
  intros Hnot.
  assert (In saved after) as Hin
    by (eapply Permutation_in; [symmetry; exact Hp | now left]).
  apply in_split in Hin as (l1 & l2 & ->). exists l1, l2. split; [reflexivity |].
  symmetry in Hp. apply Permutation_cons_app_inv in Hp.
  split; intros Hin; apply Hnot; eapply Permutation_in;
    try (symmetry; exact Hp); apply in_or_app; auto.
Qed.

(** The amended claim C3 for a save and a fetch that both reach the
    backend. *)
Lemma save_then_fetchAll_same_store_witness :
  exists saved w1 before w2 after w3,
    saveFit (online 1000%N "7d9f0c1e-0000-4000-8000-000000000001") (fall_outfit "s1") empty_world
      = (Ok saved, w1)
    /\ getSavedFits (online 2000%N "7d9f0c1e-0000-4000-8000-000000000002") "s1" empty_world = (Ok before, w2)
    /\ getSavedFits (online 2000%N "7d9f0c1e-0000-4000-8000-000000000002") "s1" w1 = (Ok after, w3)
    /\ Permutation after (saved :: before)
    /\ (~ In saved before ->
        exists l1 l2, after = app l1 (saved :: l2) /\ ~ In saved l1 /\ ~ In saved l2).
Proof.
  apply (save_then_fetchAll_same_store
           (online 1000%N "7d9f0c1e-0000-4000-8000-000000000001") (online 2000%N "7d9f0c1e-0000-4000-8000-000000000002")
           (fall_outfit "s1") empty_world).
  - reflexivity.
  - discriminate.
Defined.

(** When the fetch is served by the other store, the save does not show. *)
Lemma save_then_fetchAll_other_store env env' payload w :
  reaches_backend env payload <> store_up env' ->
  fst (getSavedFits env' (Payload.session_id payload) (snd (saveFit env payload w)))
  = fst (getSavedFits env' (Payload.session_id payload) w).
Proof.
  intros Hstore. rewrite saveFit_cases, !getSavedFits_cases. cbv zeta.
  unfold reaches_backend in Hstore.
  destruct (functions_up env && truthy (Some (Payload.session_id payload)));
    [| destruct (store_up env); [| destruct (local_error env)]]; cbn [orb] in Hstore;
    destruct (store_up env'); try congruence; reflexivity.
Qed.

(* ================================================================= *)
(** ** Delete, upload, and the frame of the local cache *)


(** After the delete of a local id that went through, a fetch served by the
    local cache holds no outfit of that id. *)
Lemma deleteOutfit_local_then_fetch env env' outfitId sessionId w :
  String.prefix "local_" outfitId = true ->
  store_up env' = false ->
  local_error env = None ->
  exists l w', getSavedFits env' sessionId (snd (deleteOutfit env outfitId w)) = (Ok l, w')
               /\ Forall (fun o => Outfit.id o <> outfitId) l.
Proof.
  intros Hlocal Hdown Hok. rewrite deleteOutfit_cases, Hlocal, Hok, getSavedFits_cases, Hdown.
  cbv zeta. eexists _, _. split; [reflexivity |].
  apply Forall_forall. intros o Ho. apply filter_In in Ho as [Ho _].
  unfold cache_seen in Ho. destruct (local_read_error env'); [contradiction |].
  unfold cached in Ho. cbn in Ho. apply filter_In in Ho as [_ Ho].
  apply negb_true_iff in Ho. now apply String.eqb_neq in Ho.
Qed.

(** Claim C9.  [uploadFile] resolves only when a file was given and the
    storage call reported no error, and then to the public URL of the
    stored path; when the storage call reports an error, [uploadFile]
    rejects with that same error; without a file it rejects with "No file
    provided".  No other tier is tried. *)
Theorem uploadFile_surfaces_failure env file category sessionId :
  ((exists url, uploadFile env file category sessionId = Ok url)
   <-> exists f, file = Some f /\ upload_error env = None)
  /\ (forall f url, file = Some f -> uploadFile env file category sessionId = Ok url ->
                    url = getPublicUrl env (upload_path env f category sessionId))
  /\ (forall f e, file = Some f -> upload_error env = Some e ->
                  uploadFile env file category sessionId = Throw e)
  /\ (file = None -> uploadFile env file category sessionId = Throw (Error "No file provided")).
Proof.
  unfold uploadFile, storage_upload, upload_path, try_catch_result.
  destruct file as [f |]; cbn; destruct (upload_error env) as [e |]; cbn.
  - split; [split; [intros (url & H); discriminate | intros (f' & _ & H); discriminate] |].
    split; [intros ? ? _ H; discriminate |].
    split; [intros ? ? _ [= <-]; reflexivity | discriminate].
  - split; [split; eauto |].
    split; [intros ? ? [= <-] [= <-]; reflexivity |].
    split; [intros ? ? _ H; discriminate | discriminate].
  - split; [split; [intros (url & H); discriminate | intros (f' & H & _); discriminate] |].
    split; [intros ? ? H; discriminate |].
    split; [intros ? ? H; discriminate | reflexivity].
  - split; [split; [intros (url & H); discriminate | intros (f' & H & _); discriminate] |].
    split; [intros ? ? H; discriminate |].
    split; [intros ? ? H; discriminate | reflexivity].
Qed.

(** The helper of src/lib/storage.js absorbs the failure instead. *)
Lemma uploadOutfitImage_absorbs_failure env file category e :
  upload_error env = Some e -> uploadOutfitImage env file category = Ok None.
Proof.
  intros He. unfold uploadOutfitImage, storage_upload. rewrite He.
  destruct file; reflexivity.
Qed.

(** Claim C10.  A save that reaches the backend leaves the local cache
    as it was; a save that falls back to the local cache appends exactly one
    outfit after the entries already there.  A delete of an id that starts
    with "local_" keeps, in order, exactly the entries whose id differs from
    it; a delete of any other id leaves the local cache as it was.  A save
    or a delete that meets an exception of [localStorage] leaves the local
    cache as it was. *)
Theorem local_cache_frame env payload outfitId w :
  (if reaches_backend env payload
   then cache (snd (saveFit env payload w)) = cache w
   else match local_error env with
        | None =>
            cached (snd (saveFit env payload w)) = app (cached w) [local_outfit env payload]
        | Some _ => cache (snd (saveFit env payload w)) = cache w
        end)
  /\ (if String.prefix "local_" outfitId
      then match local_error env with
           | None =>
               cached (snd (deleteOutfit env outfitId w))
               = filter (fun o => negb (Outfit.id o =? outfitId)) (cached w)
               /\ (forall o, In o (cached (snd (deleteOutfit env outfitId w)))
                             <-> In o (cached w) /\ Outfit.id o <> outfitId)
           | Some _ => cache (snd (deleteOutfit env outfitId w)) = cache w
           end
      else cache (snd (deleteOutfit env outfitId w)) = cache w).
Proof.
  rewrite saveFit_cases, deleteOutfit_cases. unfold reaches_backend. split.
  - destruct (functions_up env && truthy (Some (Payload.session_id payload)));
      [| destruct (store_up env); [| destruct (local_error env)]]; reflexivity.
  - destruct (String.prefix "local_" outfitId); [| reflexivity].
    destruct (local_error env); [reflexivity |].
    cbn. split; [reflexivity |].
    intros o. rewrite filter_In, negb_true_iff, String.eqb_neq. reflexivity.
Qed.

(* ================================================================= *)
(** * Further properties *)

(** ** The preset catalog *)

Lemma own_season_preset (s : string) (P : SeasonPreset) :
  own_property SEASON_PRESETS s = Some P ->
  preset_season P = s /\ In s valid_seasons.
Proof.
  unfold SEASON_PRESETS. cbn [own_property].
  destruct ("Spring" =? s) eqn:E1; [apply String.eqb_eq in E1; intros [= <-]; subst; cbn; auto |].
  destruct ("Summer" =? s) eqn:E2; [apply String.eqb_eq in E2; intros [= <-]; subst; cbn; auto |].
  destruct ("Fall" =? s) eqn:E3; [apply String.eqb_eq in E3; intros [= <-]; subst; cbn; auto |].
  destruct ("Winter" =? s) eqn:E4; [apply String.eqb_eq in E4; intros [= <-]; subst; cbn; auto 6 |].
  discriminate.
Qed.

Lemma recognized_season_In (s : string) : recognized_season s = true <-> In s valid_seasons.
Proof.
  unfold recognized_season. rewrite existsb_exists. split.
  - intros (x & Hx & Heq). apply String.eqb_eq in Heq. now subst.
  - intros H. exists s. split; [assumption | apply String.eqb_refl].
Qed.

(** X1.  Whatever the month, [getCurrentSeason] returns a season that has
    its own preset, stored under that very name, so that neither
    [getSeasonPreset] nor the generator falls back or throws on it.  Over a
    year it gives Winter for December to February, Spring for March to May,
    Summer for June to August and Fall for September to November. *)
Theorem getCurrentSeason_has_preset (getMonth : nat) :
  (exists P, getSeasonPreset (getCurrentSeason getMonth) = Own P
             /\ preset_season P = getCurrentSeason getMonth)
  /\ (forall clock p src k,
        default_to "Fall" (param_season p) = getCurrentSeason getMonth ->
        is_ok (generateMockAnalysis clock p src k) = true)
  /\ map getCurrentSeason (seq 0 12)
     = ["Winter"; "Winter"; "Spring"; "Spring"; "Spring"; "Summer"; "Summer"; "Summer";
        "Fall"; "Fall"; "Fall"; "Winter"].
Proof.
  assert (Hin : In (getCurrentSeason getMonth) valid_seasons).
  { unfold getCurrentSeason, valid_seasons.
    repeat match goal with |- context [if ?c then _ else _] => destruct c end;
      cbn; auto 6. }
  split; [| split; [| reflexivity]].
  - destruct (recognized_season_tables _ Hin) as (P & _ & _ & _ & _ & Hget & HP & _).
    exists P. split; [exact HP |].
    unfold js_get in Hget. destruct (own_property SEASON_PRESETS _) eqn:Hown.
    + injection Hget as <-. now apply own_season_preset.
    + destruct (existsb _ _); discriminate.
  - intros clock p src k Hs. rewrite generateMockAnalysis_returns_iff. cbv zeta.
    rewrite Hs. apply recognized_season_In in Hin. now rewrite Hin.
Qed.

(** X2.  [getSeasonPreset] never returns [undefined].  A recognized name
    gives the preset whose [season] field is that name; any other name that
    is not inherited from [Object.prototype] gives the Spring preset. *)
Theorem getSeasonPreset_fallback (s : string) :
  getSeasonPreset s <> Undefined
  /\ (recognized_season s = true ->
      exists P, getSeasonPreset s = Own P /\ preset_season P = s)
  /\ (recognized_season s = false -> inherited_key s = false ->
      getSeasonPreset s = Own Spring_preset).
Proof.
  split; [| split].
  - unfold getSeasonPreset, js_get.
    destruct (own_property SEASON_PRESETS s); [discriminate |].
    destruct (existsb _ _); discriminate.
  - intros Hs. apply recognized_season_In in Hs.
    destruct (recognized_season_tables _ Hs) as (P & _ & _ & _ & _ & Hget & HP & _).
    exists P. split; [exact HP |].
    unfold js_get in Hget. destruct (own_property SEASON_PRESETS s) eqn:Hown.
    + injection Hget as <-. now apply own_season_preset.
    + destruct (existsb _ _); discriminate.
  - intros Hs Hi. unfold getSeasonPreset.
    rewrite (unrecognized_season_tables _ _ _ Hs) by reflexivity.
    now rewrite Hi.
Qed.

Lemma getSeasonPreset_fallback_witness :
  exists P, getSeasonPreset "Winter" = Own P /\ preset_season P = "Winter".
Proof.
  apply (proj1 (proj2 (getSeasonPreset_fallback "Winter"))). reflexivity.
Defined.

(** X3.  [getMockPreset] never throws.  Season and formality fall back
    independently: unless the name is inherited from [Object.prototype], the
    season fields are those of the requested preset or of Spring, and the
    three formality fields are those of the requested level or, all three,
    those of the casual level: label "Casual", description "Jeans,
    sneakers, t-shirts, hoodies", examples streetwear, athleisure and
    everyday. *)
Theorem getMockPreset_falls_back (s : string) (f : option string) :
  exists m,
    getMockPreset s f = Ok m
    /\ (inherited_key s = false ->
        exists P, seasonData m = Some P
                  /\ (own_property SEASON_PRESETS s = Some P
                      \/ own_property SEASON_PRESETS s = None /\ P = Spring_preset))
    /\ (inherited_key (default_to "casual" f) = false ->
        exists F, formality_label m = Some (label F)
                  /\ formalityDescription m = Some (level_description F)
                  /\ formalityExamples m = Some (examples F)
                  /\ (own_property FORMALITY_LEVELS (default_to "casual" f) = Some F
                      \/ own_property FORMALITY_LEVELS (default_to "casual" f) = None
                         /\ F = {| label := "Casual";
                                   level_description := "Jeans, sneakers, t-shirts, hoodies";
                                   examples := ["streetwear"; "athleisure"; "everyday"] |})).
Proof.
  unfold getMockPreset, getSeasonPreset, js_get, inherited_key.
  set (f' := default_to "casual" f).
  destruct (own_property FORMALITY_LEVELS "casual") as [C |] eqn:HC; [| discriminate HC].
  assert (HlC : C = {| label := "Casual";
                       level_description := "Jeans, sneakers, t-shirts, hoodies";
                       examples := ["streetwear"; "athleisure"; "everyday"] |})
    by (cbn in HC; now injection HC as <-).
  destruct (own_property SEASON_PRESETS "Spring") as [S |] eqn:HS; [| discriminate HS].
  assert (HsS : S = Spring_preset) by (cbn in HS; now injection HS as <-).
  clear HC HS.
  destruct (existsb (String.eqb s) Object_prototype_keys) eqn:Hs;
    destruct (existsb (String.eqb f') Object_prototype_keys) eqn:Hf;
    destruct (own_property SEASON_PRESETS s) as [P |];
    destruct (own_property FORMALITY_LEVELS f') as [F |];
    cbn; eexists; (split; [reflexivity |]); cbn;
    (split; intros H; try discriminate H; eexists; repeat split; eauto).
Qed.

(** ** More on the generator *)

(** X4.  The generator never looks at an image: two argument objects with
    the same season and formality whose slots are populated alike give the
    same outcome on the same random source. *)
Theorem mock_ignores_image_content clock p p' src k :
  truthy (topUrl p) = truthy (topUrl p') ->
  truthy (topLayerUrl p) = truthy (topLayerUrl p') ->
  truthy (bottomUrl p) = truthy (bottomUrl p') ->
  truthy (shoesUrl p) = truthy (shoesUrl p') ->
  truthy (accessoriesUrl p) = truthy (accessoriesUrl p') ->
  param_season p = param_season p' ->
  param_formality p = param_formality p' ->
  generateMockAnalysis clock p src k = generateMockAnalysis clock p' src k.
Proof.
  intros H1 H2 H3 H4 H5 Hs Hf. unfold generateMockAnalysis, describe.
  now rewrite H1, H2, H3, H4, H5, Hs, Hf.
Qed.

Lemma mock_ignores_image_content_witness :
  generateMockAnalysis 0%N fall_bottom_params (constant_source 1 1) 0
  = generateMockAnalysis 0%N
      {| topUrl := Some ""; topLayerUrl := None;
         bottomUrl := Some "blob:another-image"; shoesUrl := None; accessoriesUrl := None;
         param_season := Some "Fall"; param_formality := Some "casual" |}
      (constant_source 1 1) 0.
Proof.
  apply (mock_ignores_image_content 0%N fall_bottom_params); reflexivity.
Defined.

(** X5.  A reroll changes the random picks only.  On a recognized season,
    two runs on the same slots with any two clocks and random sources agree
    on the colors, the accessories, their tags and their sentence, on the
    first two aesthetic tags and the number of tags, and on which
    descriptions are present. *)
Theorem reroll_keeps_colors clock clock' p src src' k k' :
  In (default_to "Fall" (param_season p)) valid_seasons ->
  exists a a' n n',
    generateMockAnalysis clock p src k = Ok (a, n)
    /\ generateMockAnalysis clock' p src' k' = Ok (a', n')
    /\ colors a = colors a'
    /\ accessories a = accessories a'
    /\ accessories_tags a = accessories_tags a'
    /\ accessories_description a = accessories_description a'
    /\ firstn 2 (aesthetic a) = firstn 2 (aesthetic a')
    /\ List.length (aesthetic a) = List.length (aesthetic a')
    /\ truthy (top a) = truthy (top a')
    /\ truthy (topLayer a) = truthy (topLayer a')
    /\ truthy (bottom a) = truthy (bottom a')
    /\ truthy (shoes a) = truthy (shoes a').
Proof.
  intros Hs.
  destruct (recognized_season_tables _ Hs)
    as (P & lt & ll & lb & ls & _ & HP & Ht & Hct & Hl & Hcl & Hb & Hcb & Hsh & Hcs
        & _ & (t0 & t1 & ts & HT & _) & _).
  destruct (generateMockAnalysis_tables clock p src k P lt ll lb ls HP Ht Hct Hl Hcl Hb Hcb Hsh Hcs)
    as (d1 & d2 & d3 & d4 & tag & k4 & E & (T1 & _) & (T2 & _) & (T3 & _) & (T4 & _) & _).
  destruct (generateMockAnalysis_tables clock' p src' k' P lt ll lb ls HP Ht Hct Hl Hcl Hb Hcb Hsh Hcs)
    as (e1 & e2 & e3 & e4 & tag' & k4' & E' & (U1 & _) & (U2 & _) & (U3 & _) & (U4 & _) & _).
  cbv zeta in E, E'. eexists _, _, _, _. split; [exact E |]. split; [exact E' |].
  cbn [colors accessories accessories_tags accessories_description aesthetic
       top topLayer bottom shoes].
  rewrite HT, !length_push. cbn.
  repeat split; congruence.
Qed.

Lemma reroll_keeps_colors_witness :
  exists a a' n n',
    generateMockAnalysis 1%N spring_every_slot (constant_source 0 0) 0 = Ok (a, n)
    /\ generateMockAnalysis 2%N spring_every_slot (constant_source 3 0) 7 = Ok (a', n')
    /\ colors a = colors a'
    /\ accessories a = accessories a'
    /\ accessories_tags a = accessories_tags a'
    /\ accessories_description a = accessories_description a'
    /\ firstn 2 (aesthetic a) = firstn 2 (aesthetic a')
    /\ List.length (aesthetic a) = List.length (aesthetic a')
    /\ truthy (top a) = truthy (top a')
    /\ truthy (topLayer a) = truthy (topLayer a')
    /\ truthy (bottom a) = truthy (bottom a')
    /\ truthy (shoes a) = truthy (shoes a').
Proof.
  apply (reroll_keeps_colors 1%N 2%N spring_every_slot); cbn; tauto.
Defined.

(** X6.  On a recognized season the generator calls [Math.random()] once
    for every garment slot that has an image, and once more for the
    formality tag. *)
Theorem mock_draw_count clock p src k :
  In (default_to "Fall" (param_season p)) valid_seasons ->
  exists a, generateMockAnalysis clock p src k = Ok (a, (k + garments_populated p + 1)%nat).
Proof.
  intros Hs.
  destruct (recognized_season_tables _ Hs)
    as (P & lt & ll & lb & ls & _ & HP & Ht & Hct & Hl & Hcl & Hb & Hcb & Hsh & Hcs & _).
  destruct (describe_candidates (topUrl p) _ _ _ src k Ht Hct) as (d1 & E1 & _).
  set (k1 := if truthy (topUrl p) then S k else k) in *.
  destruct (describe_candidates (topLayerUrl p) _ _ _ src k1 Hl Hcl) as (d2 & E2 & _).
  set (k2 := if truthy (topLayerUrl p) then S k1 else k1) in *.
  destruct (describe_candidates (bottomUrl p) _ _ _ src k2 Hb Hcb) as (d3 & E3 & _).
  set (k3 := if truthy (bottomUrl p) then S k2 else k2) in *.
  destruct (describe_candidates (shoesUrl p) _ _ _ src k3 Hsh Hcs) as (d4 & E4 & _).
  set (k4 := if truthy (shoesUrl p) then S k3 else k3) in *.
  destruct (getRandomItem_formality (default_to "casual" (param_formality p)) src k4)
    as (tag & Etag).
  assert (Hk : (k + garments_populated p + 1 = S k4)%nat).
  { unfold garments_populated, k4, k3, k2, k1. cbn [filter].
    destruct (truthy (topUrl p)), (truthy (topLayerUrl p)), (truthy (bottomUrl p)),
      (truthy (shoesUrl p)); cbn; lia. }
  rewrite Hk. unfold generateMockAnalysis.
  rewrite (bind_rand_ok _ _ _ _ _ _ E1).
  rewrite (bind_rand_ok _ _ _ _ _ _ E2).
  rewrite (bind_rand_ok _ _ _ _ _ _ E3).
  rewrite (bind_rand_ok _ _ _ _ _ _ E4).
  rewrite HP.
  set (acc := if truthy (accessoriesUrl p) then firstn 2 (recommendedAccessories P) else []).
  assert (Eacc : (if truthy (accessoriesUrl p)
                  then lift (a <- field recommendedAccessories (Own P) ;; slice0 2 a)
                  else ret []) src k4 = Ok (acc, k4))
    by (unfold acc; destruct (truthy (accessoriesUrl p)); reflexivity).
  rewrite (bind_rand_ok _ _ _ _ _ _ Eacc).
  assert (Etags : lift (a <- field preset_aesthetic (Own P) ;; slice0 2 a) src k4
                  = Ok (firstn 2 (preset_aesthetic P), k4)) by reflexivity.
  rewrite (bind_rand_ok _ _ _ _ _ _ Etags).
  rewrite (bind_rand_ok _ _ _ _ _ _ Etag).
  destruct (truthy d1), (truthy d2), (truthy d3), (truthy d4); eexists; reflexivity.
Qed.

Lemma mock_draw_count_witness :
  exists a, generateMockAnalysis 0%N spring_every_slot (constant_source 0 0) 10
            = Ok (a, (10 + garments_populated spring_every_slot + 1)%nat).
Proof.
  apply (mock_draw_count 0%N spring_every_slot); cbn; tauto.
Defined.

Lemma buildDescription_empty_iff t l b s acc :
  buildDescription t l b s acc = ""
  <-> truthy t = false /\ truthy l = false /\ truthy b = false /\ truthy s = false /\ acc = [].
Proof.
  unfold buildDescription, push_if, push.
  destruct t as [[| c1 x1] |], l as [[| c2 x2] |], b as [[| c3 x3] |], s as [[| c4 x4] |],
    acc as [| a0 acc']; cbn; split; intros H;
    try discriminate H; try (repeat split; reflexivity);
    try (destruct H as (H1 & H2 & H3 & H4 & H5); discriminate).
Qed.

(** X7.  On a recognized season the description of the outfit is the empty
    string exactly when no slot has an image; with an image in the
    accessories slot only, it is the accessories fragment alone. *)
Theorem mock_description_empty_iff clock p src k :
  In (default_to "Fall" (param_season p)) valid_seasons ->
  exists a n,
    generateMockAnalysis clock p src k = Ok (a, n)
    /\ (ai_description a = ""
        <-> garment_populated p = false /\ truthy (accessoriesUrl p) = false)
    /\ (garment_populated p = false -> truthy (accessoriesUrl p) = true ->
        ai_description a = "accessorized with " ++ String.concat ", " (accessories_tags a)).
Proof.
  intros Hs.
  destruct (recognized_season_tables _ Hs)
    as (P & lt & ll & lb & ls & _ & HP & Ht & Hct & Hl & Hcl & Hb & Hcb & Hsh & Hcs
        & _ & _ & (x0 & x1 & xs & HX)).
  destruct (generateMockAnalysis_tables clock p src k P lt ll lb ls HP Ht Hct Hl Hcl Hb Hcb Hsh Hcs)
    as (d1 & d2 & d3 & d4 & tag & k4 & E & (T1 & I1) & (T2 & I2) & (T3 & I3) & (T4 & I4) & _).
  cbv zeta in E. eexists _, _. split; [exact E |].
  cbn [ai_description accessories_tags]. unfold garment_populated. split.
  - rewrite buildDescription_empty_iff, T1, T2, T3, T4, HX.
    destruct (truthy (topUrl p)), (truthy (topLayerUrl p)), (truthy (bottomUrl p)),
      (truthy (shoesUrl p)), (truthy (accessoriesUrl p)); cbn; intuition discriminate.
  - intros Hg Ha. rewrite Ha, HX.
    apply orb_false_iff in Hg as [Hg H4]. apply orb_false_iff in Hg as [Hg H3].
    apply orb_false_iff in Hg as [H1 H2].
    rewrite H1 in T1. rewrite H2 in T2. rewrite H3 in T3. rewrite H4 in T4.
    rewrite (absent_description d1 lt Hct I1 T1), (absent_description d2 ll Hcl I2 T2),
      (absent_description d3 lb Hcb I3 T3), (absent_description d4 ls Hcs I4 T4).
    reflexivity.
Qed.

Lemma mock_description_empty_iff_witness :
  exists a n,
    generateMockAnalysis 0%N no_image_params (constant_source 0 0) 0 = Ok (a, n)
    /\ (ai_description a = ""
        <-> garment_populated no_image_params = false
            /\ truthy (accessoriesUrl no_image_params) = false)
    /\ (garment_populated no_image_params = false ->
        truthy (accessoriesUrl no_image_params) = true ->
        ai_description a = "accessorized with " ++ String.concat ", " (accessories_tags a)).
Proof.
  apply (mock_description_empty_iff 0%N no_image_params); cbn; tauto.
Defined.

(** X8.  On a recognized season [analyzeFit] always resolves, whatever the
    edge function replies: to the payload of the edge function, without any
    call of [Math.random()], or else to a mock analysis. *)
Theorem analyzeFit_resolves_on_recognized_season edge clock payload src k :
  In (default_to "Fall" (AnalyzePayload.season payload)) valid_seasons ->
  (exists d, analyzeFit edge clock payload src k = Ok (FromEdgeFunction d, k)
             /\ data edge = Some d /\ edge_served edge = true)
  \/ (exists a n, analyzeFit edge clock payload src k = Ok (FromMock a, n)
                  /\ generateMockAnalysis clock (mock_params_of payload) src k = Ok (a, n)
                  /\ edge_served edge = false).
Proof.
  intros Hs. rewrite analyzeFit_cases.
  destruct (generateMockAnalysis_recognized_total clock (mock_params_of payload) src k Hs)
    as (a & n & Hmock).
  destruct (edge_served edge) eqn:Hserved.
  - destruct (edge_served_data _ Hserved) as (d & Hd). rewrite Hd. left. eauto.
  - right. exists a, n. rewrite Hmock. destruct (data edge); auto.
Qed.

Lemma analyzeFit_resolves_on_recognized_season_witness :
  (exists d, analyzeFit unreachable_function 0%N
               (analysisPayload_of "s1" [("bottom", "https://cdn.example/b.png")] "Fall" "casual")
               (constant_source 0 0) 0 = Ok (FromEdgeFunction d, 0)
             /\ data (@unreachable_function json) = Some d
             /\ edge_served (@unreachable_function json) = true)
  \/ (exists a n, analyzeFit unreachable_function 0%N
                    (analysisPayload_of "s1" [("bottom", "https://cdn.example/b.png")] "Fall" "casual")
                    (constant_source 0 0) 0 = Ok (FromMock a, n)
                  /\ generateMockAnalysis 0%N
                       (mock_params_of
                          (analysisPayload_of "s1" [("bottom", "https://cdn.example/b.png")]
                             "Fall" "casual"))
                       (constant_source 0 0) 0 = Ok (a, n)
                  /\ edge_served (@unreachable_function json) = false).
Proof.
  apply (analyzeFit_resolves_on_recognized_season unreachable_function 0%N
           (analysisPayload_of "s1" [("bottom", "https://cdn.example/b.png")] "Fall" "casual")).
  cbn. tauto.
Defined.

(** ** Uploads *)

Lemma chars_app (a b : string) : chars (a ++ b) = app (chars a) (chars b).
Proof. induction a as [| c a IH]; cbn; [reflexivity | now rewrite IH]. Qed.

Lemma decimal_digits (n : N) : Forall (fun c => safe_char c = true) (chars (decimal n)).
Proof.
  unfold decimal.
  assert (H : forall d, Forall (fun c => safe_char c = true)
                          (chars (NilEmpty.string_of_uint d)))
    by (induction d; cbn; constructor; auto).
  destruct (N.to_uint n); cbn; try (repeat constructor; fail);
    (constructor; [reflexivity | apply H]).
Qed.

Lemma decimal_inj (n n' : N) : decimal n = decimal n' -> n = n'.
Proof.
  unfold decimal. intros H.
  assert (Hnn : forall m, N.to_uint m <> Decimal.Nil)
    by (intros [| q]; cbn; [discriminate | apply DecimalPos.Unsigned.to_uint_nonnil]).
  apply DecimalN.Unsigned.to_uint_inj.
  pose proof (NilZero.usu _ (Hnn n)) as E. rewrite H, (NilZero.usu _ (Hnn n')) in E.
  now injection E.
Qed.

Lemma replace_unsafe_safe (name : string) :
  Forall (fun c => safe_char c = true) (chars (replace_unsafe name)).
Proof.
  induction name as [| c rest IH]; cbn; constructor; [| exact IH].
  unfold safe_char. destruct (kept_in_file_name c) eqn:Hc; [now rewrite Hc | reflexivity].
Qed.

(** X9.  The replacement of unsafe characters keeps the length of the
    name, leaves only letters, digits, dots, hyphens and underscores (in
    particular no slash), changes nothing in a name that has only kept
    characters, and changes nothing when applied twice. *)
Theorem replace_unsafe_properties (name : string) :
  String.length (replace_unsafe name) = String.length name
  /\ Forall (fun c => safe_char c = true) (chars (replace_unsafe name))
  /\ ~ In "/"%char (chars (replace_unsafe name))
  /\ replace_unsafe (replace_unsafe name) = replace_unsafe name
  /\ (Forall (fun c => kept_in_file_name c = true) (chars name) -> replace_unsafe name = name).
Proof.
  repeat split.
  - induction name as [| c rest IH]; cbn; [reflexivity | now rewrite IH].
  - apply replace_unsafe_safe.
  - induction name as [| c rest IH]; cbn; [tauto |]. intros [Hc | Hin]; [| auto].
    destruct (kept_in_file_name c) eqn:Hk; [subst c |]; discriminate.
  - induction name as [| c rest IH]; cbn; [reflexivity |]. rewrite IH. f_equal.
    destruct (kept_in_file_name c) eqn:Hc; [now rewrite Hc | reflexivity].
  - induction name as [| c rest IH]; cbn; [reflexivity |].
    intros H. inversion_clear H as [| ? ? Hc Hrest]. rewrite Hc. f_equal. auto.
Qed.

(** X10.  The path that [uploadFile] stores a file under is the session
    folder, "/originals/", the category, an underscore, and a last part made
    of the time stamp and the cleaned name; that last part has only letters,
    digits, dots, hyphens and underscores, so the name of the file cannot
    add a folder to the path.  Two uploads at different times never share a
    path. *)
Theorem upload_path_shape env f category sessionId :
  (exists last,
      upload_path env f category sessionId
      = sessionId ++ "/originals/" ++ category ++ "_" ++ last
      /\ Forall (fun c => safe_char c = true) (chars last)
      /\ ~ In "/"%char (chars last))
  /\ (forall env', upload_path env f category sessionId = upload_path env' f category sessionId ->
                   upload_now env = upload_now env').
Proof.
  split.
  - exists (decimal (upload_now env) ++ "_" ++ replace_unsafe (name f)).
    split; [reflexivity |].
    assert (Hsafe : Forall (fun c => safe_char c = true)
                      (chars (decimal (upload_now env) ++ "_" ++ replace_unsafe (name f)))).
    { rewrite !chars_app. apply Forall_app. split; [apply decimal_digits |].
      apply Forall_app. split; [repeat constructor |].
      apply replace_unsafe_safe. }
    split; [exact Hsafe |].
    intros Hin. rewrite Forall_forall in Hsafe. specialize (Hsafe _ Hin). discriminate.
  - intros env' H. unfold upload_path in H.
    assert (Hcancel : forall a b c : string, a ++ b = a ++ c -> b = c).
    { induction a as [| x a IH]; cbn; intros b c E; [exact E |]. injection E. apply IH. }
    do 4 apply Hcancel in H.
    apply decimal_inj.
    assert (Hsplit : forall a b tail : string,
               Forall (fun c => c <> "_"%char) (chars a) ->
               Forall (fun c => c <> "_"%char) (chars b) ->
               a ++ "_" ++ tail = b ++ "_" ++ tail -> a = b).
    { induction a as [| x a IH]; intros [| y b] tail Ha Hb E; cbn in *.
      - reflexivity.
      - injection E as E1 _. inversion_clear Hb as [| ? ? Hy _]. now elim Hy.
      - injection E as E1 _. inversion_clear Ha as [| ? ? Hx _]. now elim Hx.
      - injection E as -> E. f_equal.
        inversion_clear Ha. inversion_clear Hb. eapply IH; eauto. }
    assert (Hdig : forall n, Forall (fun c => c <> "_"%char) (chars (decimal n))).
    { intros n. unfold decimal.
      assert (Hd : forall d, Forall (fun c => c <> "_"%char)
                               (chars (NilEmpty.string_of_uint d)))
        by (induction d; cbn; constructor; auto; discriminate).
      destruct (N.to_uint n); cbn; try (repeat constructor; discriminate);
        constructor; try discriminate; apply Hd. }
    eapply Hsplit; eauto.
Qed.

(** X11.  The edge function [upload-file] and the client agree on where a
    file goes: whenever the function answers 200, its URL is the one that
    [uploadFile] resolves to for the same file, category, session and
    storage outcome; and for a non-empty category and session the function
    answers 200 exactly when [uploadFile] resolves.  The function refuses an
    empty category or session with 400, which the client does not check. *)
Theorem upload_file_handler_agrees env file category sessionId :
  (forall url, upload_file_handler env file category sessionId = Http200 url ->
     exists f c s, file = Some f /\ category = Some c /\ sessionId = Some s
                   /\ uploadFile env file c s = Ok url)
  /\ (forall f c s, file = Some f -> category = Some c -> sessionId = Some s ->
        truthy category = true -> truthy sessionId = true ->
        forall url, uploadFile env file c s = Ok url ->
                    upload_file_handler env file category sessionId = Http200 url)
  /\ (truthy category = false \/ truthy sessionId = false ->
      upload_file_handler env file category sessionId
      = HttpError 400 "file, category, and session_id are required").
Proof.
  unfold upload_file_handler, uploadFile, storage_upload, try_catch_result.
  destruct file as [f |], category as [c |], sessionId as [s |]; cbn -[truthy];
    repeat split; try discriminate;
    try (intros [H | H]; try discriminate H; try reflexivity).
  - intros url. destruct (truthy (Some c)), (truthy (Some s)); cbn; try discriminate.
    destruct (upload_error env); cbn; [discriminate |]. intros [= <-]. eauto 10.
  - intros f' c' s' [= <-] [= <-] [= <-] Hc Hs url. rewrite Hc, Hs. cbn.
    destruct (upload_error env); cbn; [discriminate |]. now intros [= <-].
  - now rewrite H.
  - rewrite H. now destruct (truthy (Some c)).
Qed.

(** X12.  The helper [uploadOutfitImage] never rejects: it resolves to a
    URL exactly when [uploadFile] would resolve for the same file and
    storage outcome, and to [null] in every other case.  It stores the file
    under the category folder with the name as given, not cleaned. *)
Theorem uploadOutfitImage_never_rejects env file category sessionId :
  (exists r, uploadOutfitImage env file category = Ok r
             /\ (r <> None <-> is_ok (uploadFile env file category sessionId) = true))
  /\ (forall f, file = Some f -> upload_error env = None ->
        uploadOutfitImage env file category
        = Ok (Some (getPublicUrl env
                      (category ++ "/" ++ decimal (upload_now env) ++ "_" ++ name f)))).
Proof.
  unfold uploadOutfitImage, uploadFile, storage_upload, try_catch_result.
  destruct file as [f |]; cbn; destruct (upload_error env); cbn; split;
    try (eexists; split; [reflexivity |]; split; [intros H; try reflexivity; now elim H
                                                  | intros H; discriminate]);
    try (intros f' [= <-] H; try discriminate H; reflexivity);
    try (intros f' H; discriminate H).
Qed.

(** ** The stores *)

Lemma filter_comm {A} (f g : A -> bool) (l : list A) :
  filter f (filter g l) = filter g (filter f l).
Proof.
  induction l as [| x l IH]; cbn; [reflexivity |].
  destruct (f x) eqn:Hf, (g x) eqn:Hg; cbn; rewrite ?Hf, ?Hg, IH; reflexivity.
Qed.

Lemma filter_all {A} (f : A -> bool) (l : list A) :
  Forall (fun x => f x = true) l -> filter f l = l.
Proof.
  induction 1 as [| x l Hx _ IH]; cbn; [reflexivity |]. now rewrite Hx, IH.
Qed.

Lemma insert_desc_head o l :
  Forall (fun x => (created_at_of x <= created_at_of o)%N) l -> insert_desc o l = o :: l.
Proof.
  destruct 1 as [| x l Hx _]; cbn; [reflexivity |].
  apply N.leb_le in Hx. now rewrite Hx.
Qed.

Lemma filter_insert_desc (f : Outfit.t -> bool) o l :
  newest_first l ->
  filter f (insert_desc o l) = if f o then insert_desc o (filter f l) else filter f l.
Proof.
  unfold newest_first. induction 1 as [| x l Hs IH Hx]; cbn.
  - destruct (f o); reflexivity.
  - destruct (created_at_of x <=? created_at_of o)%N eqn:Hle.
    + cbn. destruct (f o) eqn:Hfo; [| reflexivity].
      symmetry. apply insert_desc_head. apply N.leb_le in Hle.
      assert (Hall : Forall (fun y => (created_at_of y <= created_at_of o)%N) (x :: l)).
      { constructor; [assumption |]. eapply Forall_impl; [| exact Hx]. cbn. intros; lia. }
      apply Forall_forall. intros y Hy.
      rewrite Forall_forall in Hall. apply Hall.
      change (In y (filter f (x :: l))) in Hy. now apply filter_In in Hy.
    + cbn. rewrite IH. destruct (f x) eqn:Hfx, (f o) eqn:Hfo; cbn; rewrite ?Hle; reflexivity.
Qed.

Lemma filter_order_desc (f : Outfit.t -> bool) l :
  filter f (order_desc l) = order_desc (filter f l).
Proof.
  induction l as [| x l IH]; [reflexivity |].
  change (order_desc (x :: l)) with (insert_desc x (order_desc l)).
  rewrite filter_insert_desc by apply order_desc_sorted.
  rewrite IH. cbn [filter]. destruct (f x); reflexivity.
Qed.

(** X13.  [getSavedFits] only reads: the backend table and the local cache
    are as before, the Gateway has been called twice (the remote function,
    then the direct query), and a second fetch in the same conditions
    returns the same list. *)
Theorem getSavedFits_reads_only env sessionId w :
  exists l w',
    getSavedFits env sessionId w = (Ok l, w')
    /\ db w' = db w /\ cache w' = cache w
    /\ gateway_log w' = app (gateway_log w)
                            [FunctionsInvoke "getSavedFits"; TableSelect sessionId]
    /\ fst (getSavedFits env sessionId w') = Ok l.
Proof.
  rewrite getSavedFits_cases. cbv zeta.
  destruct (store_up env) eqn:Hup; eexists _, _; (split; [reflexivity |]);
    (repeat split; [unfold push; cbn; now rewrite <- app_assoc |]);
    rewrite getSavedFits_cases, Hup; reflexivity.
Qed.

(** X14.  [saveFit] writes the outfit it returns to exactly one store, at
    the end: either the backend table gets it and the local cache is
    untouched, or the local cache gets it and the table is untouched.  The
    remote function is always called first; the direct insert is called
    only after it, and the local cache is written only after both were
    called.  [saveFit] rejects exactly when neither Gateway tier takes the
    save and reading or writing the local cache throws; it rejects with that
    exception, after both calls, and no store has changed. *)
Theorem saveFit_writes_one_store env payload w :
  match saveFit env payload w with
  | (Ok saved, w') =>
      (db w' = app (db w) [saved] /\ cache w' = cache w
       \/ db w' = db w /\ cache w' = Some (app (cached w) [saved]))
      /\ (gateway_log w' = app (gateway_log w) [FunctionsInvoke "save-fit"]
          \/ gateway_log w' = app (gateway_log w) [FunctionsInvoke "save-fit"; TableInsert])
      /\ (db w' = db w ->
          gateway_log w' = app (gateway_log w) [FunctionsInvoke "save-fit"; TableInsert])
      /\ (reaches_backend env payload = true \/ local_error env = None)
  | (Throw e, w') =>
      reaches_backend env payload = false
      /\ local_error env = Some e
      /\ db w' = db w
      /\ cache w' = cache w
      /\ gateway_log w' = app (gateway_log w) [FunctionsInvoke "save-fit"; TableInsert]
  end.
Proof.
  rewrite saveFit_cases. unfold push, reaches_backend.
  destruct (functions_up env && truthy (Some (Payload.session_id payload)));
    [| destruct (store_up env); [| destruct (local_error env)]]; cbn;
    rewrite <- ?app_assoc; cbn; auto 6.
  split; [auto |]. split; [auto |]. split; [| auto]. intros H. exfalso.
  apply (f_equal (@List.length _)) in H. rewrite length_app in H. cbn in H. lia.
Qed.

Lemma or_null_id (v : option string) : v <> Some "" -> or_null v = v.
Proof.
  unfold or_null. destruct v as [[| c s] |]; cbn; [congruence | reflexivity | reflexivity].
Qed.

(** X15.  What [saveFit] returns is marked saved and belongs to the session
    of the payload; its [aesthetic], [colors] and [accessories_tags] are
    those of the payload, or empty where the payload has none.  When no text
    field of the payload is the empty string, the ten text fields are those
    of the payload and the three tiers store the same content, up to the
    time stamp: the function's clock when the remote function takes the
    save, the client's clock for the direct insert and the local cache.  The
    remote function turns an empty text into [null]: there an empty
    [ai_description] comes back as [null].  When [saveFit] rejects, no
    Gateway tier took the save and the exception is that of the local
    cache. *)
Theorem saveFit_content env payload w :
  match fst (saveFit env payload w) with
  | Ok saved =>
      Outfit.saved (Outfit.fields saved) = true
      /\ Outfit.session_id (Outfit.fields saved) = Payload.session_id payload
      /\ Outfit.aesthetic (Outfit.fields saved)
         = match Payload.aesthetic payload with Some l => l | None => [] end
      /\ Outfit.colors (Outfit.fields saved)
         = match Payload.colors payload with Some o => o | None => [] end
      /\ Outfit.accessories_tags (Outfit.fields saved)
         = match Payload.accessories_tags payload with Some l => l | None => [] end
      /\ (no_empty_text payload ->
          Outfit.fields saved
          = with_created_at
              (if functions_up env && truthy (Some (Payload.session_id payload))
               then server_now env else now env)
              (outfitData_of env payload)
          /\ [ Outfit.top_url (Outfit.fields saved); Outfit.top_layer_url (Outfit.fields saved);
               Outfit.bottom_url (Outfit.fields saved); Outfit.shoes_url (Outfit.fields saved);
               Outfit.accessories_url (Outfit.fields saved);
               Outfit.ai_description (Outfit.fields saved);
               Outfit.ai_image_url (Outfit.fields saved); Outfit.season (Outfit.fields saved);
               Outfit.formality (Outfit.fields saved);
               Outfit.accessories_description (Outfit.fields saved) ]
             = [ Payload.top_url payload; Payload.top_layer_url payload;
                 Payload.bottom_url payload; Payload.shoes_url payload;
                 Payload.accessories_url payload; Payload.ai_description payload;
                 Payload.ai_image_url payload; Payload.season payload;
                 Payload.formality payload; Payload.accessories_description payload ])
      /\ (functions_up env = true -> truthy (Some (Payload.session_id payload)) = true ->
          Payload.ai_description payload = Some "" ->
          Outfit.ai_description (Outfit.fields saved) = None)
  | Throw e => reaches_backend env payload = false /\ local_error env = Some e
  end.
Proof.
  rewrite saveFit_cases. unfold reaches_backend.
  destruct (functions_up env) eqn:Hfn;
    destruct (truthy (Some (Payload.session_id payload))) eqn:Hs; cbn [andb orb].
  all: try (destruct (store_up env); [| destruct (local_error env); [cbn; auto |]]).
  all: cbn [fst]; do 5 (split; [reflexivity |]).
  all: split; [| first [ intros; discriminate | intros _ _ Hd; cbn; now rewrite Hd ] ].
  all: intros Hne; try (split; reflexivity).
  all: unfold no_empty_text in Hne;
    repeat match goal with
           | H : Forall _ (_ :: _) |- _ => inversion_clear H
           end;
    unfold remote_row, with_created_at; cbn;
    rewrite !or_null_id by assumption; split; reflexivity.
Qed.

Lemma without_id_fresh (outfitId : string) (l : list Outfit.t) :
  Forall (fun o => Outfit.id o <> outfitId) l -> without_id outfitId l = l.
Proof.
  intros H. apply filter_all. eapply Forall_impl; [| exact H].
  cbn. intros o Ho. apply negb_true_iff. now apply String.eqb_neq.
Qed.

Lemma without_id_app (outfitId : string) (l1 l2 : list Outfit.t) :
  without_id outfitId (app l1 l2) = app (without_id outfitId l1) (without_id outfitId l2).
Proof. apply filter_app. Qed.

(** X16.  Deleting the outfit that [saveFit] has just returned undoes the
    save: the backend table and the local cache are as they were before the
    save.  This needs the id to be new in its store; for an outfit that
    reached the backend it also needs the generated id not to start with
    "local_" and the direct delete to go through; for an outfit that fell
    back to the local cache it needs the entry to be read and written
    without an exception by the save and by the delete. *)
Theorem save_then_delete_restores env env_delete payload w :
  (reaches_backend env payload = true ->
   String.prefix "local_" (new_uuid env) = false /\ store_up env_delete = true) ->
  (reaches_backend env payload = false ->
   local_error env = None /\ local_error env_delete = None) ->
  Forall (fun o => Outfit.id o <> new_uuid env) (db w) ->
  Forall (fun o => Outfit.id o <> Outfit.id (local_outfit env payload)) (cached w) ->
  exists saved w1 w2,
    saveFit env payload w = (Ok saved, w1)
    /\ deleteOutfit env_delete (Outfit.id saved) w1 = (Ok true, w2)
    /\ db w2 = db w
    /\ cached w2 = cached w.
Proof.
  intros Hback Hlocal Hdb Hcache. unfold reaches_backend in Hback, Hlocal.
  rewrite saveFit_cases.
  destruct (functions_up env && truthy (Some (Payload.session_id payload)));
    [| destruct (store_up env)]; cbn [orb] in Hback, Hlocal;
    try (destruct (Hlocal eq_refl) as [Hsave Hdelete]; rewrite Hsave);
    eexists _, _, _; (split; [reflexivity |]); rewrite deleteOutfit_cases.
  - destruct (Hback eq_refl) as [Hp Hup]. cbn [Outfit.id remote_row]. rewrite Hp, Hup.
    split; [reflexivity |]. cbn [db cache]. unfold cached. cbn [cache]. split; [| reflexivity].
    unfold delete_rows, push. fold (without_id (new_uuid env) (db w ++ [remote_row env payload])).
    rewrite without_id_app, without_id_fresh by assumption.
    unfold without_id. cbn. rewrite String.eqb_refl. cbn. apply app_nil_r.
  - destruct (Hback eq_refl) as [Hp Hup]. cbn [Outfit.id direct_row]. rewrite Hp, Hup.
    split; [reflexivity |]. cbn [db cache]. unfold cached. cbn [cache]. split; [| reflexivity].
    unfold delete_rows, push. fold (without_id (new_uuid env) (db w ++ [direct_row env payload])).
    rewrite without_id_app, without_id_fresh by assumption.
    unfold without_id. cbn. rewrite String.eqb_refl. cbn. apply app_nil_r.
  - assert (Hp : String.prefix "local_" (Outfit.id (local_outfit env payload)) = true)
      by apply prefix_local.
    rewrite Hp, Hdelete. split; [reflexivity |]. split; [reflexivity |].
    unfold push. cbn [cached cache].
    fold (without_id (Outfit.id (local_outfit env payload))
            (cached w ++ [local_outfit env payload])).
    rewrite without_id_app, without_id_fresh by assumption.
    unfold without_id. cbn [filter]. rewrite String.eqb_refl. cbn. apply app_nil_r.
Qed.

Lemma save_then_delete_restores_witness :
  exists saved w1 w2,
    saveFit (online 1000%N "7d9f0c1e-0000-4000-8000-000000000001") (fall_outfit "s1") empty_world
    = (Ok saved, w1)
    /\ deleteOutfit (online 2000%N "7d9f0c1e-0000-4000-8000-000000000002") (Outfit.id saved) w1
       = (Ok true, w2)
    /\ db w2 = db empty_world
    /\ cached w2 = cached empty_world.
Proof.
  apply (save_then_delete_restores
           (online 1000%N "7d9f0c1e-0000-4000-8000-000000000001")
           (online 2000%N "7d9f0c1e-0000-4000-8000-000000000002")
           (fall_outfit "s1") empty_world).
  - intros _. split; reflexivity.
  - discriminate.
  - constructor.
  - constructor.
Defined.

(** X17.  Local ids are unique per millisecond only.  Two saves that fall
    back to the local cache, and read and write it without an exception,
    get the same id exactly when [Date.now()] is the same at both; if so, a
    delete of that id that goes through removes both outfits from the
    cache. *)
Theorem local_ids_collide env1 env2 env_delete payload1 payload2 w :
  functions_up env1 && truthy (Some (Payload.session_id payload1)) = false ->
  store_up env1 = false ->
  local_error env1 = None ->
  functions_up env2 && truthy (Some (Payload.session_id payload2)) = false ->
  store_up env2 = false ->
  local_error env2 = None ->
  exists first w1 second w2,
    saveFit env1 payload1 w = (Ok first, w1)
    /\ saveFit env2 payload2 w1 = (Ok second, w2)
    /\ cached w2 = app (cached w) [first; second]
    /\ (Outfit.id first = Outfit.id second <-> now_later env1 = now_later env2)
    /\ (now_later env1 = now_later env2 -> local_error env_delete = None ->
        cached (snd (deleteOutfit env_delete (Outfit.id first) w2))
        = without_id (Outfit.id first) (cached w)).
Proof.
  intros Hf1 Hs1 Hl1 Hf2 Hs2 Hl2. rewrite saveFit_cases, Hf1, Hs1, Hl1.
  eexists _, _, _, _. split; [reflexivity |].
  rewrite saveFit_cases, Hf2, Hs2, Hl2. split; [reflexivity |].
  unfold push. cbn [cached cache].
  split; [now rewrite <- app_assoc |]. split.
  - cbn [Outfit.id local_outfit]. split.
    + intros H. apply decimal_inj.
      assert (Hcancel : forall a b c : string, a ++ b = a ++ c -> b = c).
      { induction a as [| x a IH]; cbn; intros b c E; [exact E |]. injection E. apply IH. }
      now apply Hcancel in H.
    + now intros ->.
  - intros Heq Hdelete. rewrite deleteOutfit_cases.
    assert (Hp : String.prefix "local_" (Outfit.id (local_outfit env1 payload1)) = true)
      by apply prefix_local.
    rewrite Hp, Hdelete. cbn [snd cached cache].
    fold (without_id (Outfit.id (local_outfit env1 payload1))
            ((cached w ++ [local_outfit env1 payload1]) ++ [local_outfit env2 payload2])).
    rewrite !without_id_app.
    assert (H1 : without_id (Outfit.id (local_outfit env1 payload1))
                   [local_outfit env1 payload1] = [])
      by (unfold without_id; cbn [filter]; now rewrite String.eqb_refl).
    assert (H2 : without_id (Outfit.id (local_outfit env1 payload1))
                   [local_outfit env2 payload2] = []).
    { unfold without_id. cbn [filter]. cbn [Outfit.id local_outfit].
      rewrite Heq. now rewrite String.eqb_refl. }
    rewrite H1, H2. now rewrite !app_nil_r.
Qed.

Lemma local_ids_collide_witness :
  exists first w1 second w2,
    saveFit (offline 1000%N) (fall_outfit "s1") empty_world = (Ok first, w1)
    /\ saveFit (offline 1000%N) (fall_outfit "s2") w1 = (Ok second, w2)
    /\ cached w2 = app (cached empty_world) [first; second]
    /\ (Outfit.id first = Outfit.id second
        <-> now_later (offline 1000%N) = now_later (offline 1000%N))
    /\ (now_later (offline 1000%N) = now_later (offline 1000%N) ->
        local_error (offline 3000%N) = None ->
        cached (snd (deleteOutfit (offline 3000%N) (Outfit.id first) w2))
        = without_id (Outfit.id first) (cached empty_world)).
Proof.
  apply (local_ids_collide (offline 1000%N) (offline 1000%N) (offline 3000%N)
           (fall_outfit "s1") (fall_outfit "s2") empty_world); reflexivity.
Defined.

(** X18.  A fetch after a delete.  When the delete acts on the store that
    serves the fetch and goes through (a local id, a cache that the delete
    reads and writes without an exception and a fetch from the cache; or
    another id, a delete that the backend accepts and a fetch from the
    backend), the fetch returns what it returned before without the outfits
    of that id, the others in the same order; in every other case it returns
    what it returned before. *)
Theorem delete_then_fetch env_delete env sessionId outfitId w :
  exists ok w1 before w2 after w3,
    deleteOutfit env_delete outfitId w = (Ok ok, w1)
    /\ getSavedFits env sessionId w = (Ok before, w2)
    /\ getSavedFits env sessionId w1 = (Ok after, w3)
    /\ after = (if String.prefix "local_" outfitId
                then if store_up env then before
                     else match local_error env_delete with
                          | None => without_id outfitId before
                          | Some _ => before
                          end
                else if store_up env_delete && store_up env
                     then without_id outfitId before else before).
Proof.
  rewrite deleteOutfit_cases.
  destruct (String.prefix "local_" outfitId), (store_up env) eqn:Hup,
    (store_up env_delete) eqn:Hdel, (local_error env_delete);
    eexists _, _, _, _, _, _; (split; [reflexivity |]);
    rewrite !getSavedFits_cases, ?Hup; cbv zeta;
    (split; [reflexivity |]); (split; [reflexivity |]);
    unfold cache_seen; cbn [db cache cached andb];
    try reflexivity.
  all: try (destruct (local_read_error env); [reflexivity |];
            unfold without_id; apply filter_comm).
  all: unfold select_saved, delete_rows, without_id;
    rewrite filter_order_desc; f_equal; apply filter_comm.
Qed.

Lemma Forall_filter {A} (P : A -> Prop) (f : A -> bool) (l : list A) :
  Forall P l -> Forall P (filter f l).
Proof.
  intros H. apply Forall_forall. intros x Hx. apply filter_In in Hx as [Hx _].
  rewrite Forall_forall in H. auto.
Qed.

Lemma getSavedFits_prefix env sessionId w :
  ids_by_origin w ->
  exists l, fst (getSavedFits env sessionId w) = Ok l
            /\ Forall (fun o => String.prefix "local_" (Outfit.id o) = negb (store_up env)) l.
Proof.
  intros [Hdb Hc]. rewrite getSavedFits_cases. cbv zeta.
  destruct (store_up env); cbn [fst negb]; eexists; (split; [reflexivity |]).
  - eapply Permutation_Forall; [symmetry; apply select_saved_perm |].
    now apply Forall_filter.
  - apply Forall_filter. unfold cache_seen.
    destruct (local_read_error env); [constructor | assumption].
Qed.

(** X19.  The id tells the store.  Starting from stores where no row of the
    backend has an id with the local prefix and every cached outfit has one
    (the empty stores, for instance), every save whose generated id does not
    start with "local_", every delete and every fetch keep it so; and every
    outfit that a fetch returns has the local prefix exactly when the fetch
    was served by the local cache. *)
Theorem ids_by_origin_kept :
  ids_by_origin empty_world
  /\ (forall env payload w,
        ids_by_origin w -> String.prefix "local_" (new_uuid env) = false ->
        ids_by_origin (snd (saveFit env payload w)))
  /\ (forall env outfitId w,
        ids_by_origin w -> ids_by_origin (snd (deleteOutfit env outfitId w)))
  /\ (forall env sessionId w,
        ids_by_origin w ->
        ids_by_origin (snd (getSavedFits env sessionId w))
        /\ exists l, fst (getSavedFits env sessionId w) = Ok l
                     /\ Forall (fun o => String.prefix "local_" (Outfit.id o)
                                         = negb (store_up env)) l).
Proof.
  unfold ids_by_origin. split; [split; constructor |]. split; [| split].
  - intros env payload w [Hdb Hc] Hp. rewrite saveFit_cases.
    destruct (functions_up env && truthy (Some (Payload.session_id payload)));
      [| destruct (store_up env); [| destruct (local_error env); [now split |]]];
      cbn [snd db cached cache]; unfold push;
      (split; [try assumption | try assumption]);
      apply Forall_app; (split; [assumption |]); constructor; auto.
    apply prefix_local.
  - intros env outfitId w [Hdb Hc]. rewrite deleteOutfit_cases.
    destruct (String.prefix "local_" outfitId);
      [destruct (local_error env); [now split |] |]; cbn [snd db cached cache].
    + split; [assumption | now apply Forall_filter].
    + split; [| assumption]. destruct (store_up env); [| assumption].
      now apply Forall_filter.
  - intros env sessionId w Hids. split; [| now apply getSavedFits_prefix].
    destruct Hids as [Hdb Hc]. rewrite getSavedFits_cases. cbv zeta.
    destruct (store_up env); cbn [snd db cached cache]; split; assumption.
Qed.

(** X20.  The list on the favorites page stays in step with the stores.
    [loadOutfits] never sets an error; and after any [handleDelete] on the
    loaded page (cancelled, failed or successful, whatever the id), the list
    that the page shows is the list that loading again, in the same
    conditions, would show. *)
Theorem handleDelete_matches_reload env sessionId st w :
  ids_by_origin w ->
  exists st0 w0,
    loadOutfits env sessionId st w = (Ok st0, w0)
    /\ Favorites.error st0 = None
    /\ forall confirmed env_delete outfitId,
         exists st1 w1 st2 w2,
           handleDelete confirmed env_delete outfitId st0 w0 = (Ok st1, w1)
           /\ loadOutfits env sessionId st1 w1 = (Ok st2, w2)
           /\ Favorites.outfits st2 = Favorites.outfits st1.
Proof.
  intros Hids.
  assert (Hload : forall st w,
             loadOutfits env sessionId st w
             = (Ok {| Favorites.outfits :=
                        if store_up env then select_saved sessionId (db w)
                        else filter (of_session sessionId) (cache_seen env w);
                      Favorites.loading := false; Favorites.error := None;
                      Favorites.selectedOutfit := Favorites.selectedOutfit st |},
                snd (getSavedFits env sessionId w))).
  { intros st' w'. unfold loadOutfits, try_catch. cbn [bind io_monad].
    rewrite getSavedFits_cases. cbv zeta. destruct (store_up env); reflexivity. }
  rewrite Hload. eexists _, _. split; [reflexivity |]. split; [reflexivity |].
  intros confirmed env_delete outfitId.
  destruct (getSavedFits_prefix env sessionId w Hids) as (l & Hl & Hprefix).
  rewrite getSavedFits_cases in Hl |- *. cbv zeta in Hl |- *.
  unfold handleDelete, try_catch. cbn [bind io_monad].
  destruct confirmed; cbn [negb].
  2: { cbn [ret io_monad]. eexists _, _, _, _. split; [reflexivity |].
       rewrite Hload. split; [reflexivity |]. cbn [Favorites.outfits snd].
       destruct (store_up env); reflexivity. }
  rewrite deleteOutfit_cases.
  destruct (String.prefix "local_" outfitId) eqn:Hp.
  - destruct (local_error env_delete); cbn [ret io_monad].
    { eexists _, _, _, _. split; [reflexivity |].
      rewrite Hload. split; [reflexivity |]. cbn [Favorites.outfits snd db cached cache].
      destruct (store_up env); reflexivity. }
    eexists _, _, _, _. split; [reflexivity |].
    rewrite Hload. split; [reflexivity |]. cbn [Favorites.outfits snd db cached cache].
    destruct (store_up env) eqn:Hup; cbn [fst snd negb] in Hl, Hprefix |- *.
    + injection Hl as <-. symmetry. apply filter_all.
      eapply Forall_impl; [| exact Hprefix]. cbn. intros o Ho.
      apply negb_true_iff, String.eqb_neq. intros E. rewrite E in Ho. congruence.
    + unfold cache_seen. destruct (local_read_error env); [reflexivity |].
      cbn [cached cache]. apply filter_comm.
  - destruct (store_up env_delete) eqn:Hdel; cbn [ret io_monad].
    + eexists _, _, _, _. split; [reflexivity |].
      rewrite Hload. split; [reflexivity |]. cbn [Favorites.outfits snd db cached cache].
      destruct (store_up env) eqn:Hup; cbn [fst snd negb] in Hl, Hprefix |- *.
      * unfold select_saved, delete_rows. rewrite filter_order_desc. f_equal.
        apply filter_comm.
      * injection Hl as <-. symmetry. apply filter_all.
        eapply Forall_impl; [| exact Hprefix]. cbn. intros o Ho.
        apply negb_true_iff, String.eqb_neq. intros E. rewrite E in Ho. congruence.
    + eexists _, _, _, _. split; [reflexivity |].
      rewrite Hload. split; [reflexivity |]. cbn [Favorites.outfits snd db cached cache].
      destruct (store_up env); reflexivity.
Qed.

Lemma handleDelete_matches_reload_witness :
  exists st0 w0,
    loadOutfits (offline 3000%N) "s1"
      {| Favorites.outfits := []; Favorites.loading := true; Favorites.error := None;
         Favorites.selectedOutfit := None |} two_local_saves = (Ok st0, w0)
    /\ Favorites.error st0 = None
    /\ forall confirmed env_delete outfitId,
         exists st1 w1 st2 w2,
           handleDelete confirmed env_delete outfitId st0 w0 = (Ok st1, w1)
           /\ loadOutfits (offline 3000%N) "s1" st1 w1 = (Ok st2, w2)
           /\ Favorites.outfits st2 = Favorites.outfits st1.
Proof.
  apply (handleDelete_matches_reload (offline 3000%N) "s1"
           {| Favorites.outfits := []; Favorites.loading := true; Favorites.error := None;
              Favorites.selectedOutfit := None |} two_local_saves).
  split; [constructor |]. repeat constructor.
Defined.

(** ** The handlers of the pages *)

Lemma own_property_js_set_same {A} (o : object A) (key : string) (v : A) :
  own_property (js_set o key v) key = Some v.
Proof.
  induction o as [| [k x] rest IH]; cbn.
  - now rewrite String.eqb_refl.
  - destruct (k =? key) eqn:E; cbn; rewrite E; [reflexivity | exact IH].
Qed.

Lemma own_property_js_set_other {A} (o : object A) (key other : string) (v : A) :
  other <> key -> own_property (js_set o key v) other = own_property o other.
Proof.
  intros Hne. induction o as [| [k x] rest IH]; cbn.
  - destruct (key =? other) eqn:E; [apply String.eqb_eq in E; congruence | reflexivity].
  - destruct (k =? key) eqn:E; cbn.
    + apply String.eqb_eq in E. subst k.
      destruct (key =? other) eqn:E'; [apply String.eqb_eq in E'; congruence | reflexivity].
    + now rewrite IH.
Qed.

Lemma js_keys_js_set_present {A} (o : object A) (key : string) (v : A) :
  In key (js_keys o) -> js_keys (js_set o key v) = js_keys o.
Proof.
  unfold js_keys. induction o as [| [k x] rest IH]; cbn; [tauto |].
  intros [-> | Hin].
  - now rewrite String.eqb_refl.
  - destruct (k =? key) eqn:E; cbn; [| now rewrite IH].
    apply String.eqb_eq in E. now subst.
Qed.

(** X21.  [handleFileSelect] takes a file exactly when its type starts with
    "image/" and its size is at most 5 * 1024 * 1024 bytes.  A file that is
    taken becomes the upload of its category, with its preview, and clears
    the error; the other categories and the order of the slots are as
    before.  A file that is refused changes nothing but the error
    message.  Either way the recorded URLs, the analysis, the flags, the
    season and the formality of the page are as before. *)
Theorem handleFileSelect_validates createObjectURL category f st :
  let st' := handleFileSelect createObjectURL category (Some f) st in
  Page.analysis st' = Page.analysis st
  /\ Page.uploadedUrls st' = Page.uploadedUrls st
  /\ Page.analyzing st' = Page.analyzing st
  /\ Page.saving st' = Page.saving st
  /\ Page.savedSuccess st' = Page.savedSuccess st
  /\ Page.season st' = Page.season st
  /\ Page.formality st' = Page.formality st
  /\ if String.prefix "image/" (type f) && (size f <=? max_file_size)%N
     then Page.error st' = None
          /\ own_property (Page.uploads st') category = Some (Some f)
          /\ own_property (Page.previewUrls st') category = Some (Some (createObjectURL f))
          /\ (forall other, other <> category ->
                own_property (Page.uploads st') other = own_property (Page.uploads st) other
                /\ own_property (Page.previewUrls st') other
                   = own_property (Page.previewUrls st) other)
          /\ (In category (js_keys (Page.uploads st)) ->
              js_keys (Page.uploads st') = js_keys (Page.uploads st))
     else Page.uploads st' = Page.uploads st
          /\ Page.previewUrls st' = Page.previewUrls st
          /\ Page.error st' <> None.
Proof.
  cbv zeta. unfold handleFileSelect. rewrite (N.leb_antisym max_file_size (size f)).
  destruct (String.prefix "image/" (type f)); cbn [negb andb].
  - destruct (max_file_size <? size f)%N; cbn [negb Page.analysis Page.uploadedUrls
      Page.error Page.uploads Page.previewUrls Page.analyzing Page.saving
      Page.savedSuccess Page.season Page.formality]; repeat split; try discriminate.
    + apply own_property_js_set_same.
    + apply own_property_js_set_same.
    + now apply own_property_js_set_other.
    + now apply own_property_js_set_other.
    + apply js_keys_js_set_present.
  - cbn. repeat split. discriminate.
Qed.

Lemma upload_all_recorded storage sessionId entries :
  forall urls category url,
    own_property (upload_all storage sessionId entries urls) category = Some url ->
    own_property urls category = Some url
    \/ exists f, In (category, Some f) entries
                 /\ uploadFile (storage category) (Some f) category sessionId = Ok url.
Proof.
  induction entries as [| [c file] rest IH]; intros urls category url H; cbn in H.
  - now left.
  - apply IH in H. destruct H as [H | (f & Hin & Hup)].
    + destruct file as [f |]; [| now left].
      destruct (uploadFile (storage c) (Some f) c sessionId) as [u |] eqn:Hu; [| now left].
      destruct (String.eqb_spec category c) as [-> | Hne].
      * rewrite own_property_js_set_same in H. injection H as ->.
        right. exists f. split; [now left | exact Hu].
      * rewrite own_property_js_set_other in H by assumption. now left.
    + right. exists f. split; [now right | exact Hup].
Qed.

Lemma upload_all_failed storage sessionId entries :
  (forall category f, In (category, Some f) entries ->
     is_ok (uploadFile (storage category) (Some f) category sessionId) = false) ->
  forall urls, upload_all storage sessionId entries urls = urls.
Proof.
  induction entries as [| [c file] rest IH]; intros Hfail urls; cbn; [reflexivity |].
  rewrite IH by (intros; apply Hfail; now right).
  destruct file as [f |]; [| reflexivity].
  specialize (Hfail c f (or_introl eq_refl)).
  destruct (uploadFile (storage c) (Some f) c sessionId); [discriminate | reflexivity].
Qed.

(** X22.  [handleAnalyze] never leaves the page without an answer.  With no
    file selected it only sets the message that asks for an image and calls
    nothing.  Otherwise it ends with either an analysis or an error message
    on display, never neither; a URL is recorded for a category only if a
    file was selected for it and its upload resolved to that URL; and the
    analysis and the error are those of [analyzeFit] on the recorded
    URLs. *)
Theorem handleAnalyze_outcomes sessionId storage edge clock preferences st src k :
  let st' := handleAnalyze sessionId storage edge clock preferences st src k in
  Page.analyzing st' = false
  /\ Page.uploads st' = Page.uploads st
  /\ if hasAnyImage (Page.uploads st)
     then (Page.analysis st' <> None \/ Page.error st' <> None)
          /\ (forall category url,
                own_property (Page.uploadedUrls st') category = Some (Some url) ->
                exists f, In (category, Some f) (Page.uploads st)
                          /\ uploadFile (storage category) (Some f) category sessionId = Ok url)
          /\ (forall e,
                analyzeFit edge clock
                  (analysisPayload_of sessionId
                     (upload_all storage sessionId (Page.uploads st) [])
                     (Page.season st) (Page.formality st)) src k = Throw e ->
                Page.analysis st' = None
                /\ Page.error st'
                   = Some (message_or "Failed to analyze outfit. Please try again." e))
          /\ (forall r n,
                analyzeFit edge clock
                  (analysisPayload_of sessionId
                     (upload_all storage sessionId (Page.uploads st) [])
                     (Page.season st) (Page.formality st)) src k = Ok (r, n) ->
                Page.analysis st' = Some r
                /\ (preferences = None -> Page.error st' = None))
     else Page.error st' = Some "Please upload at least one image to analyze"
          /\ Page.analysis st' = Page.analysis st
          /\ Page.uploadedUrls st' = Page.uploadedUrls st
          /\ Page.savedSuccess st' = Page.savedSuccess st.
Proof.
  cbv zeta. unfold handleAnalyze.
  destruct (hasAnyImage (Page.uploads st)); cbn [negb];
    cbn [Page.analyzing Page.uploads Page.error Page.analysis Page.uploadedUrls
         Page.savedSuccess]; (split; [reflexivity |]); (split; [reflexivity |]);
    [| repeat split].
  set (urls := upload_all storage sessionId (Page.uploads st) []).
  set (outcome := analyzeFit edge clock
                    (analysisPayload_of sessionId urls (Page.season st) (Page.formality st))
                    src k).
  split; [| split; [| split]].
  - destruct outcome as [[r n] | e]; [destruct preferences |]; cbn;
      [left | left | right]; discriminate.
  - intros category url H.
    assert (Hu : own_property urls category = Some url).
    { clear - H. induction urls as [| [c u] rest IH]; cbn in *; [discriminate |].
      destruct (c =? category); [now injection H as -> | auto]. }
    destruct (upload_all_recorded _ _ _ _ _ _ Hu) as [Hnil | Hf]; [discriminate | exact Hf].
  - intros e He. rewrite He. cbn. split; reflexivity.
  - intros r n Hr. rewrite Hr. destruct preferences; cbn; split; try reflexivity.
    discriminate.
Qed.

(** X23.  [handleAnalyze] absorbs the failure of every upload.  If files
    are selected and all their uploads fail, the edge function does not
    serve, the season is a recognized one and the preferences are stored,
    the page ends with no error and with a mock analysis of an outfit
    without any image: no description of any garment, an empty
    [ai_description], and [null] for every color. *)
Theorem handleAnalyze_absorbs_upload_failures
    sessionId storage edge clock st src k :
  hasAnyImage (Page.uploads st) = true ->
  (forall category f, In (category, Some f) (Page.uploads st) ->
     is_ok (uploadFile (storage category) (Some f) category sessionId) = false) ->
  edge_served edge = false ->
  In (Page.season st) valid_seasons ->
  let st' := handleAnalyze sessionId storage edge clock None st src k in
  exists a,
    Page.analysis st' = Some (FromMock a)
    /\ Page.error st' = None
    /\ Page.uploadedUrls st' = []
    /\ top a = None /\ topLayer a = None /\ bottom a = None /\ shoes a = None
    /\ accessories a = []
    /\ ai_description a = ""
    /\ Forall (fun entry => snd entry = None) (colors a).
Proof.
  intros Hany Hfail Hedge Hseason. cbv zeta. unfold handleAnalyze.
  rewrite Hany. cbn [negb]. rewrite (upload_all_failed _ _ _ Hfail).
  rewrite analyzeFit_cases, Hedge.
  set (p := mock_params_of
              (analysisPayload_of sessionId [] (Page.season st) (Page.formality st))).
  destruct (recognized_season_tables _ Hseason)
    as (P & lt & ll & lb & ls & _ & HP & Ht & Hct & Hl & Hcl & Hb & Hcb & Hsh & Hcs & _).
  destruct (generateMockAnalysis_tables clock p src k P lt ll lb ls HP Ht Hct Hl Hcl Hb Hcb Hsh Hcs)
    as (d1 & d2 & d3 & d4 & tag & k4 & E & (T1 & I1) & (T2 & I2) & (T3 & I3) & (T4 & I4) & _).
  cbv zeta in E. rewrite E.
  rewrite (absent_description d1 lt Hct I1 T1), (absent_description d2 ll Hcl I2 T2),
    (absent_description d3 lb Hcb I3 T3), (absent_description d4 ls Hcs I4 T4).
  cbn. eexists. split; [reflexivity |]. cbn. repeat split; repeat constructor.
Qed.

Lemma handleAnalyze_absorbs_upload_failures_witness :
  exists a,
    Page.analysis (handleAnalyze "s1" storage_down unreachable_function 0%N None
                     (one_file_page "Fall") (constant_source 0 0) 0) = Some (FromMock a)
    /\ Page.error (handleAnalyze "s1" storage_down unreachable_function 0%N None
                     (one_file_page "Fall") (constant_source 0 0) 0) = None
    /\ Page.uploadedUrls (handleAnalyze "s1" storage_down unreachable_function 0%N None
                            (one_file_page "Fall") (constant_source 0 0) 0) = []
    /\ top a = None /\ topLayer a = None /\ bottom a = None /\ shoes a = None
    /\ accessories a = []
    /\ ai_description a = ""
    /\ Forall (fun entry => snd entry = None) (colors a).
Proof.
  apply (handleAnalyze_absorbs_upload_failures "s1" storage_down unreachable_function 0%N
           (one_file_page "Fall") (constant_source 0 0) 0).
  - reflexivity.
  - intros category f _. reflexivity.
  - reflexivity.
  - cbn. tauto.
Defined.

(** X24.  The query of the backend, as the direct tier and the edge
    function [getSavedFits] both write it, returns the saved rows of the
    session and nothing else, each as often as the table holds it, newest
    first.  The edge function answers 400 without a non-empty [session_id]
    in the query string, and this query otherwise. *)
Theorem backend_query_returns_session sessionId rows :
  newest_first (select_saved sessionId rows)
  /\ (forall o, In o (select_saved sessionId rows)
                <-> In o rows /\ Outfit.session_id (Outfit.fields o) = sessionId
                    /\ Outfit.saved (Outfit.fields o) = true)
  /\ Permutation (select_saved sessionId rows)
       (filter (fun o => of_session sessionId o
                         && Bool.eqb (Outfit.saved (Outfit.fields o)) true) rows)
  /\ getSavedFits_handler (Some sessionId) rows
     = (if sessionId =? ""
        then HttpError 400 "session_id query parameter is required"
        else Http200 (select_saved sessionId rows))
  /\ getSavedFits_handler None rows
     = HttpError 400 "session_id query parameter is required".
Proof.
  split; [apply order_desc_sorted |]. split; [| split; [apply select_saved_perm |]].
  - intros o. split.
    + intros Hin. eapply Permutation_in in Hin; [| apply select_saved_perm].
      apply filter_In in Hin as [Hin Hm]. apply andb_prop in Hm as [Hs Hsaved].
      apply String.eqb_eq in Hs. apply Bool.eqb_prop in Hsaved. auto.
    + intros (Hin & Hs & Hsaved).
      eapply Permutation_in; [symmetry; apply select_saved_perm |].
      apply filter_In. split; [assumption |]. unfold of_session.
      rewrite Hs, Hsaved, String.eqb_refl. reflexivity.
  - split; [| reflexivity]. unfold getSavedFits_handler. cbn.
    destruct (sessionId =? ""); reflexivity.
Qed.

(** X25.  Every color that the generator gives to a slot has its own swatch
    in the palette of [FitDisplay], except "bright yellow", the top-layer
    color of Summer, which is drawn with the default "#CCCCCC". *)
Theorem mock_colors_have_swatches clock p src k a n slot color :
  In (default_to "Fall" (param_season p)) valid_seasons ->
  generateMockAnalysis clock p src k = Ok (a, n) ->
  color_entry a slot = Some color ->
  if color =? "bright yellow"
  then getColorValue color = Own "#CCCCCC"
       /\ default_to "Fall" (param_season p) = "Summer" /\ slot = "topLayer"
  else exists hex, own_property colorMap color = Some hex
                   /\ getColorValue color = Own hex.
Proof.
  intros Hs Hgen Hcolor.
  destruct (recognized_season_tables _ Hs)
    as (P & lt & ll & lb & ls & HPown & HP & Ht & Hct & Hl & Hcl & Hb & Hcb & Hsh & Hcs & _).
  destruct (generateMockAnalysis_tables clock p src k P lt ll lb ls HP Ht Hct Hl Hcl Hb Hcb Hsh Hcs)
    as (d1 & d2 & d3 & d4 & tag & k4 & E & _).
  cbv zeta in E. rewrite E in Hgen. injection Hgen as <- _.
  unfold color_entry in Hcolor. cbn [colors own_property] in Hcolor.
  assert (HPs : In P [Spring_preset; Summer_preset; Fall_preset; Winter_preset]).
  { destruct Hs as [Hs | [Hs | [Hs | [Hs | []]]]]; rewrite <- Hs in HPown;
      injection HPown as <-; cbn; auto 6. }
  set (s := default_to "Fall" (param_season p)) in *.
  assert (HsP : s = preset_season P).
  { destruct Hs as [Hs | [Hs | [Hs | [Hs | []]]]]; rewrite <- Hs in HPown |- *;
      injection HPown as <-; reflexivity. }
  rewrite HsP. clear E HP Ht Hl Hb Hsh HPown HsP Hs.
  unfold slot_color, or_neutral in Hcolor.
  destruct ("top" =? slot) eqn:E1;
    [| destruct ("topLayer" =? slot) eqn:E2;
       [| destruct ("bottom" =? slot) eqn:E3;
          [| destruct ("shoes" =? slot) eqn:E4;
             [| destruct ("accessories" =? slot) eqn:E5; [| discriminate]]]]];
    match goal with
    | H : (_ =? slot) = true |- _ => apply String.eqb_eq in H; subst slot
    end;
    match type of Hcolor with
    | context [if ?c then _ else _] => destruct c; try discriminate
    end;
    destruct HPs as [<- | [<- | [<- | [<- | []]]]]; cbn in Hcolor;
    try discriminate Hcolor; injection Hcolor as <-; cbn;
    try (eexists; split; reflexivity); repeat split; reflexivity.
Qed.

Lemma mock_colors_have_swatches_witness :
  if "bright yellow" =? "bright yellow"
  then getColorValue "bright yellow" = Own "#CCCCCC"
       /\ default_to "Fall" (Some "Summer") = "Summer" /\ "topLayer" = "topLayer"
  else exists hex, own_property colorMap "bright yellow" = Some hex
                   /\ getColorValue "bright yellow" = Own hex.
Proof.
  destruct (generateMockAnalysis 0%N
              {| topUrl := None; topLayerUrl := Some "blob:1"; bottomUrl := None;
                 shoesUrl := None; accessoriesUrl := None;
                 param_season := Some "Summer"; param_formality := None |}
              (constant_source 0 0) 0) as [[a n] |] eqn:Hgen; [| discriminate Hgen].
  apply (mock_colors_have_swatches 0%N
           {| topUrl := None; topLayerUrl := Some "blob:1"; bottomUrl := None;
              shoesUrl := None; accessoriesUrl := None;
              param_season := Some "Summer"; param_formality := None |}
           (constant_source 0 0) 0 a n "topLayer" "bright yellow").
  - cbn. tauto.
  - exact Hgen.
  - vm_compute in Hgen. injection Hgen as <- _. reflexivity.
Defined.
